(** * astrbot_plugin_reminder: the reminder core of [main.py]

    A shallow embedding of the [Main] class of [main.py]: the reminder
    dictionaries, the in-memory document [self.reminder_data], the calls the
    class makes into the scheduling engine, and the operations
    [_init_scheduler], [check_is_outdated], [_parse_cron_expr],
    [_add_single_reminder], [get_upcoming_reminders] and [reminder_rm].

    Python exceptions keep every mutation made before the raise, so the
    operations live in a state monad whose result is either a value or the
    exception raised, always paired with the state reached.

    The file has five parts: the embedding of the module; the vocabulary
    of the statements; a deterministic host (engine, parser, identifiers,
    clock) on which the operations run; the properties, proved for every
    host; and the statements evaluated on an example document. *)

From Stdlib Require Import ZArith Lia Ascii String.
From stdpp Require Import base strings gmap list pretty.

Local Open Scope string_scope.
Local Open Scope list_scope.
Local Open Scope Z_scope.

(** ** Python values and reminder dictionaries *)

(** The values the plugin stores under the keys of a reminder: strings, and
    [None] (the tool arguments default to [None]; [cron_h] is stored as
    given, and comes back from the file as JSON [null]). *)
Inductive pyval : Type :=
| PNone
| PStr (s : string).

#[global] Instance pyval_eq_dec : EqDecision pyval.
Proof. solve_decision. Defined.

(** A reminder is a [dict] with string keys. *)
Abbreviation reminder := (gmap string pyval).

(** [reminder.get(k)]: the value, or [None] when the key is absent. *)
Definition dict_get (k : string) (r : reminder) : pyval :=
  default PNone (r !! k).

(** ** The document: context id -> list of reminders

    [self.reminder_data] is a [dict] whose iteration order is its insertion
    order ([_init_scheduler] walks it), so it is kept as an association list
    in insertion order. *)
Definition store : Type := list (string * list reminder).

(** [data.get(k)] as an option. *)
Fixpoint store_lookup (k : string) (d : store) : option (list reminder) :=
  match d with
  | [] => None
  | (k', v) :: d' => if decide (k' = k) then Some v else store_lookup k d'
  end.

(** [data[k] = v]: overwrite in place, or append a new key at the end. *)
Fixpoint store_set (k : string) (v : list reminder) (d : store) : store :=
  match d with
  | [] => [(k, v)]
  | (k', v') :: d' =>
      if decide (k' = k) then (k', v) :: d' else (k', v') :: store_set k v d'
  end.

(** [data.get(k, [])]. *)
Definition bucket (k : string) (d : store) : list reminder :=
  default [] (store_lookup k d).

(** ** Wall-clock datetimes

    [strptime(..).replace(tzinfo=tz)] and [datetime.now(tz)] carry the same
    [tzinfo] object (or none), and Python then compares the naive fields
    lexicographically. *)
Record datetime : Type := mkDatetime {
  dt_year : Z; dt_month : Z; dt_day : Z;
  dt_hour : Z; dt_minute : Z; dt_second : Z; dt_microsecond : Z
}.

Definition dt_fields (t : datetime) : list Z :=
  [dt_year t; dt_month t; dt_day t; dt_hour t; dt_minute t; dt_second t;
   dt_microsecond t].

Fixpoint lex_ltb (a b : list Z) : bool :=
  match a, b with
  | x :: a', y :: b' => (x <? y) || ((x =? y) && lex_ltb a' b')
  | [], _ :: _ => true
  | _, [] => false
  end.

(** [a < b] and [a >= b] on datetimes. *)
Definition dt_ltb (a b : datetime) : bool := lex_ltb (dt_fields a) (dt_fields b).
Definition dt_geb (a b : datetime) : bool := negb (dt_ltb a b).

(** ** Exceptions, by the place that raises them *)
Inductive exn : Type :=
| ValueError_no_schedule
    (* ValueError("The cron_expression and datetime_str cannot be both None.") *)
| StrptimeError          (* ValueError raised by datetime.strptime *)
| TypeError
| AttributeError
| IndexError             (* fields[i] in _parse_cron_expr *)
| KeyError (k : string)
| EngineError (msg : string).  (* raised inside the scheduling engine *)

Inductive result (A : Type) : Type :=
| Ok (a : A)
| Raise (e : exn).
Arguments Ok {A} a.
Arguments Raise {A} e.

(** The monad of results alone, for the pure helpers. *)
Definition rbind {A B} (r : result A) (f : A -> result B) : result B :=
  match r with
  | Ok a => f a
  | Raise e => Raise e
  end.

(** ** Jobs submitted to the scheduling engine *)

(** The keyword arguments built by [_parse_cron_expr]. *)
Record cron_fields : Type := mkCron {
  minute : string; hour : string; day : string; month : string;
  day_of_week : string
}.

Inductive trigger : Type :=
| DateTrigger (run_date : datetime)
| CronTrigger (fields : cron_fields).

Record job_request : Type := mkJob {
  job_id : pyval;
  job_trigger : trigger;
  job_args : string * reminder;
  job_misfire_grace_time : Z
}.

(** The calls the module makes into the engine. *)
Inductive engine_call : Type :=
| AddJob (j : job_request)
| RemoveJob (id : pyval).

(** ** The collaborators outside the module

    The scheduling engine ([AsyncIOScheduler]), [datetime.strptime] with the
    format ["%Y-%m-%d %H:%M"], [uuid.uuid4] and the clock are not code of
    this module; the embedding is parametric in them.  An engine call may
    raise (the message of the exception is returned) and may change the
    engine. [uuid4 n] is the n-th identifier drawn and [clock n] the n-th
    reading of [datetime.now(tz)]. *)
Class Host : Type := {
  engine : Type;
  add_job : job_request -> engine -> option string * engine;
  remove_job : pyval -> engine -> option string * engine;
  strptime : string -> option datetime;
  uuid4 : nat -> string;
  clock : nat -> datetime
}.

Section Reminder.
Context `{H : Host}.

(** ** State of the plugin instance *)
Record state : Type := mkState {
  reminder_data : store;     (* self.reminder_data *)
  scheduler : engine;        (* self.scheduler *)
  reminder_file : store;     (* contents of astrbot-reminder.json *)
  uuid_drawn : nat;          (* identifiers drawn so far *)
  clock_reads : nat;         (* clock readings taken so far *)
  log : list string;         (* logger.error lines *)
  replies : list string;     (* event.plain_result texts yielded so far *)
  calls : list engine_call   (* history of the calls into the engine *)
}.

Definition M (A : Type) : Type := state -> result A * state.

Definition ret {A} (a : A) : M A := fun st => (Ok a, st).
Definition raise {A} (e : exn) : M A := fun st => (Raise e, st).
Definition bind {A B} (m : M A) (f : A -> M B) : M B :=
  fun st =>
    match m st with
    | (Ok a, st') => f a st'
    | (Raise e, st') => (Raise e, st')
    end.
Definition lift {A} (r : result A) : M A := fun st => (r, st).

(** [try: m except Exception as e: ...]: the exception becomes a value. *)
Definition try_ {A} (m : M A) : M (result A) :=
  fun st => (Ok (m st).1, (m st).2).

Notation "x <- m ;; k" := (bind m (fun x => k))
  (at level 100, m at next level, right associativity).
Notation "m ;;; k" := (bind m (fun _ => k))
  (at level 100, right associativity).

Definition get_data : M store := fun st => (Ok (reminder_data st), st).
Definition put_data (d : store) : M unit := fun st =>
  (Ok tt, mkState d (scheduler st) (reminder_file st) (uuid_drawn st)
                  (clock_reads st) (log st) (replies st) (calls st)).

(** [str(uuid.uuid4())] *)
Definition new_uuid : M string := fun st =>
  (Ok (uuid4 (uuid_drawn st)),
   mkState (reminder_data st) (scheduler st) (reminder_file st)
           (S (uuid_drawn st)) (clock_reads st) (log st) (replies st) (calls st)).

(** [datetime.datetime.now(self.timezone)] *)
Definition now : M datetime := fun st =>
  (Ok (clock (clock_reads st)),
   mkState (reminder_data st) (scheduler st) (reminder_file st)
           (uuid_drawn st) (S (clock_reads st)) (log st) (replies st) (calls st)).

Definition logger_error (line : string) : M unit := fun st =>
  (Ok tt, mkState (reminder_data st) (scheduler st) (reminder_file st)
                  (uuid_drawn st) (clock_reads st) (log st ++ [line])
                  (replies st) (calls st)).

(** [yield event.plain_result(text)] *)
Definition yield (text : string) : M unit := fun st =>
  (Ok tt, mkState (reminder_data st) (scheduler st) (reminder_file st)
                  (uuid_drawn st) (clock_reads st) (log st)
                  (replies st ++ [text]) (calls st)).

(** An engine call: the engine moves on and the call is recorded. *)
Definition engine_step (e : engine) (c : engine_call) (st : state) : state :=
  mkState (reminder_data st) e (reminder_file st) (uuid_drawn st)
          (clock_reads st) (log st) (replies st) (calls st ++ [c]).

(** [self.scheduler.add_job(...)] *)
Definition scheduler_add_job (j : job_request) : M unit := fun st =>
  (match (add_job j (scheduler st)).1 with
   | None => Ok tt
   | Some msg => Raise (EngineError msg)
   end,
   engine_step (add_job j (scheduler st)).2 (AddJob j) st).

(** [try: self.scheduler.remove_job(job_id) except Exception as e]: the
    value is [str(e)] when the engine raised. *)
Definition scheduler_try_remove_job (id : pyval) : M (option string) := fun st =>
  (Ok (remove_job id (scheduler st)).1,
   engine_step (remove_job id (scheduler st)).2 (RemoveJob id) st).

(** [_save_data]: the file is rewritten with the whole document. *)
Definition _save_data : M unit := fun st =>
  (Ok tt, mkState (reminder_data st) (scheduler st) (reminder_data st)
                  (uuid_drawn st) (clock_reads st) (log st) (replies st) (calls st)).

(** [datetime.datetime.strptime(v, "%Y-%m-%d %H:%M")] on a stored value. *)
Definition py_strptime (v : pyval) : result datetime :=
  match v with
  | PNone => Raise TypeError
  | PStr s => match strptime s with
              | Some t => Ok t
              | None => Raise StrptimeError
              end
  end.

(** [reminder[k]] *)
Definition dict_item (k : string) (r : reminder) : result pyval :=
  match r !! k with
  | Some v => Ok v
  | None => Raise (KeyError k)
  end.

(** ** [check_is_outdated] *)
Definition check_is_outdated (r : reminder) : M bool :=
  match r !! "datetime" with
  | Some v =>
      reminder_time <- lift (py_strptime v) ;;
      n <- now ;;
      ret (dt_ltb reminder_time n)
  | None => ret false
  end.

(** ** [_parse_cron_expr] *)

(** [cron_expr.split(" ")]: cut at every space character; the result is
    never empty, and two spaces in a row give an empty field. *)
Fixpoint split_space (s : string) : list string :=
  match s with
  | EmptyString => [EmptyString]
  | String c s' =>
      if decide (c = " "%char) then EmptyString :: split_space s'
      else match split_space s' with
           | w :: ws => String c w :: ws
           | [] => [String c EmptyString]
           end
  end.

Definition _parse_cron_expr (cron_expr : string) : result cron_fields :=
  let fields := split_space cron_expr in
  match fields !! 0%nat, fields !! 1%nat, fields !! 2%nat, fields !! 3%nat,
        fields !! 4%nat with
  | Some f0, Some f1, Some f2, Some f3, Some f4 => Ok (mkCron f0 f1 f2 f3 f4)
  | _, _, _, _, _ => Raise IndexError
  end.

(** [_parse_cron_expr(reminder["cron"])] on a stored value: [None] has no
    [split]. *)
Definition py_parse_cron (v : pyval) : result cron_fields :=
  match v with
  | PNone => Raise AttributeError
  | PStr s => _parse_cron_expr s
  end.

(** ** [_init_scheduler] *)

(** Lines 45-49: the id of the record, assigned in place when absent. *)
Definition assign_id (r : reminder) : M (pyval * reminder) :=
  match r !! "id" with
  | None => id_ <- new_uuid ;; ret (PStr id_, <["id" := PStr id_]> r)
  | Some id_ => ret (id_, r)
  end.

(** Lines 51-72: arm the record according to the keys it has. *)
Definition arm_stored (group : string) (id_ : pyval) (r : reminder) : M unit :=
  match r !! "datetime" with
  | Some v =>
      outdated <- check_is_outdated r ;;
      if outdated then ret tt
      else
        run_date <- lift (py_strptime v) ;;
        scheduler_add_job (mkJob id_ (DateTrigger run_date) (group, r) 60)
  | None =>
      match r !! "cron" with
      | Some c =>
          fields <- lift (py_parse_cron c) ;;
          scheduler_add_job (mkJob id_ (CronTrigger fields) (group, r) 60)
      | None => ret tt
      end
  end.

(** The inner loop over one bucket.  The dictionaries are mutated in place,
    so an exception leaves the ids assigned so far in the document: the
    loop returns the bucket as it stands together with the exception that
    stopped it, if any. *)
Fixpoint init_group (group : string) (rs : list reminder)
  : M (list reminder * option exn) :=
  match rs with
  | [] => ret ([], None)
  | r :: rs' =>
      ir <- assign_id r ;;
      armed <- try_ (arm_stored group ir.1 ir.2) ;;
      match armed with
      | Raise e => ret (ir.2 :: rs', Some e)
      | Ok _ =>
          rest <- init_group group rs' ;;
          ret (ir.2 :: rest.1, rest.2)
      end
  end.

(** The outer loop over the document. *)
Fixpoint init_groups (d : store) : M (store * option exn) :=
  match d with
  | [] => ret ([], None)
  | (group, rs) :: d' =>
      g <- init_group group rs ;;
      match g.2 with
      | Some e => ret ((group, g.1) :: d', Some e)
      | None =>
          rest <- init_groups d' ;;
          ret ((group, g.1) :: rest.1, rest.2)
      end
  end.

Definition _init_scheduler : M unit :=
  d <- get_data ;;
  r <- init_groups d ;;
  put_data r.1 ;;;
  match r.2 with
  | Some e => raise e
  | None => ret tt
  end.

(** ** [_add_single_reminder] *)

(** Truthiness of an argument ([if cron_expression], [if not text]): the
    string, when the argument is a non-empty string. *)
Definition nonempty (v : pyval) : option string :=
  match v with
  | PNone => None
  | PStr s => if decide (s = "") then None else Some s
  end.

(** [self.reminder_data[umo].append(d)] *)
Definition bucket_append (umo : string) (d : reminder) : M unit :=
  data <- get_data ;;
  match store_lookup umo data with
  | Some l => put_data (store_set umo (l ++ [d]) data)
  | None => raise (KeyError umo)
  end.

Definition default_text : string := "未命名待办事项".

Definition _add_single_reminder (unified_msg_origin : string)
    (text datetime_str cron_expression human_readable_cron : pyval)
  : M (string * string) :=
  data <- get_data ;;
  (match store_lookup unified_msg_origin data with
   | None => put_data (store_set unified_msg_origin [] data)
   | Some _ => ret tt
   end) ;;;
  match nonempty cron_expression, nonempty datetime_str with
  | None, None => raise ValueError_no_schedule
  | Some cron, _ =>
      let text := default default_text (nonempty text) in
      id <- new_uuid ;;
      let d : reminder :=
        <["cron_h" := human_readable_cron]>
          (<["cron" := PStr cron]>
             (<["id" := PStr id]> {["text" := PStr text]})) in
      bucket_append unified_msg_origin d ;;;
      fields <- lift (_parse_cron_expr cron) ;;
      scheduler_add_job
        (mkJob (PStr id) (CronTrigger fields) (unified_msg_origin, d) 60) ;;;
      ret (text,
           match nonempty human_readable_cron with
           | Some label => label +:+ "(Cron: " +:+ cron +:+ ")"
           | None => ""
           end)
  | None, Some dts =>
      let text := default default_text (nonempty text) in
      id <- new_uuid ;;
      let d : reminder :=
        <["datetime" := PStr dts]>
          (<["id" := PStr id]> {["text" := PStr text]}) in
      bucket_append unified_msg_origin d ;;;
      datetime_scheduled <- lift (py_strptime (PStr dts)) ;;
      scheduler_add_job
        (mkJob (PStr id) (DateTrigger datetime_scheduled)
               (unified_msg_origin, d) 60) ;;;
      ret (text, dts)
  end.

(** ** [get_upcoming_reminders] *)

(** The condition of the comprehension for one record. *)
Definition is_upcoming (n : datetime) (r : reminder) : result bool :=
  match r !! "datetime" with
  | None => Ok true
  | Some v => rbind (py_strptime v) (fun t => Ok (dt_geb t n))
  end.

(** The list comprehension: every condition is evaluated, in order. *)
Fixpoint upcoming (n : datetime) (rs : list reminder) : result (list reminder) :=
  match rs with
  | [] => Ok []
  | r :: rs' =>
      rbind (is_upcoming n r) (fun keep =>
      rbind (upcoming n rs') (fun l =>
      Ok (if keep : bool then r :: l else l)))
  end.

Definition get_upcoming_reminders (unified_msg_origin : string)
  : M (list reminder) :=
  data <- get_data ;;
  match bucket unified_msg_origin data with
  | [] => ret []
  | reminders =>
      n <- now ;;
      lift (upcoming n reminders)
  end.

(** ** [reminder_rm] *)

(** Lines 342-344: the loop pops from the list it is iterating.  After
    [pop(i)] the next record slides into slot [i] and the iterator moves on
    to slot [i+1], so the record that follows a popped one is not
    examined. *)
Fixpoint pop_matching (job_id : pyval) (rs : list reminder) : list reminder :=
  match rs with
  | [] => []
  | r :: rs' =>
      if decide (dict_get "id" r = job_id) then
        match rs' with
        | [] => []
        | r2 :: rs'' => r2 :: pop_matching job_id rs''
        end
      else r :: pop_matching job_id rs'
  end.

Definition nl : string := String (ascii_of_nat 10) EmptyString.

Definition msg_no_reminders : string := "没有待办事项。".
Definition msg_out_of_range : string := "索引越界。".
Definition msg_remove_job_failed (e : string) : string :=
  "成功移除对应的待办事项。删除定时任务失败: " +:+ e
  +:+ " 可能需要重启 AstrBot 以取消该提醒任务。".
Definition msg_removed (text : string) : string :=
  "成功删除待办事项：" +:+ nl +:+ text.

Definition reminder_rm (unified_msg_origin : string) (index : Z) : M unit :=
  reminders <- get_upcoming_reminders unified_msg_origin ;;
  match reminders with
  | [] => yield msg_no_reminders
  | _ =>
      if (index <? 1) || (index >? Z.of_nat (length reminders))
      then yield msg_out_of_range
      else
        match reminders !! Z.to_nat (index - 1) with
        | None => raise IndexError
        | Some reminder =>
            let job_id := dict_get "id" reminder in
            data <- get_data ;;
            (match store_lookup unified_msg_origin data with
             | Some users_reminders =>
                 put_data (store_set unified_msg_origin
                             (pop_matching job_id users_reminders) data)
             | None => ret tt
             end) ;;;
            failure <- scheduler_try_remove_job job_id ;;
            (match failure with
             | Some e =>
                 logger_error ("Remove job error: " +:+ e) ;;;
                 yield (msg_remove_job_failed e)
             | None => ret tt
             end) ;;;
            _save_data ;;;
            text <- lift (dict_item "text" reminder) ;;
            match text with
            | PStr s => yield (msg_removed s)
            | PNone => raise TypeError
            end
        end
  end.

End Reminder.

Arguments state {H}.
Arguments mkState {H}.

(** * Vocabulary of the statements *)

Section Vocabulary.
Context `{H : Host}.

(** ** Cron expressions *)

(** [" ".join(ws)] *)
Definition join_space (ws : list string) : string := String.concat " " ws.

Fixpoint has_space (s : string) : bool :=
  match s with
  | EmptyString => false
  | String c s' => bool_decide (c = " "%char) || has_space s'
  end.

(** ** States along an operation *)

(** One more clock reading taken. *)
Definition tick (st : state) : state :=
  mkState (reminder_data st) (scheduler st) (reminder_file st)
          (uuid_drawn st) (S (clock_reads st)) (log st) (replies st)
          (calls st).

(** One more identifier drawn. *)
Definition draw (st : state) : state :=
  mkState (reminder_data st) (scheduler st) (reminder_file st)
          (S (uuid_drawn st)) (clock_reads st) (log st) (replies st)
          (calls st).

(** Lines 101-102: the bucket exists afterwards. *)
Definition ensure_bucket (umo : string) (st : state) : state :=
  match store_lookup umo (reminder_data st) with
  | None => mkState (store_set umo [] (reminder_data st)) (scheduler st)
              (reminder_file st) (uuid_drawn st) (clock_reads st) (log st)
              (replies st) (calls st)
  | Some _ => st
  end.

(** The state once the new record is appended: one identifier drawn. *)
Definition appended (umo : string) (d : reminder) (st : state) : state :=
  mkState
    (store_set umo (bucket umo (reminder_data st) ++ [d])
       (reminder_data (ensure_bucket umo st)))
    (scheduler st) (reminder_file st) (S (uuid_drawn st)) (clock_reads st)
    (log st) (replies st) (calls st).

(** ** The record built by [_add_single_reminder] *)

(** The text stored and returned: the placeholder when none is given. *)
Definition text_of (text : pyval) : string :=
  default default_text (nonempty text).

(** The dictionary of a recurring reminder. *)
Definition cron_record (text : pyval) (id cron : string) (label : pyval)
  : reminder :=
  <["cron_h" := label]>
    (<["cron" := PStr cron]>
       (<["id" := PStr id]> {["text" := PStr (text_of text)]})).

(** The dictionary of a one-shot reminder. *)
Definition date_record (text : pyval) (id dts : string) : reminder :=
  <["datetime" := PStr dts]>
    (<["id" := PStr id]> {["text" := PStr (text_of text)]}).

(** The display time of a recurring reminder. *)
Definition cron_display (label : pyval) (cron : string) : string :=
  match nonempty label with
  | Some l => l +:+ "(Cron: " +:+ cron +:+ ")"
  | None => ""
  end.

(** ** Stored records *)

(** The ids of a bucket, [None] standing for a missing one. *)
Definition ids (rs : list reminder) : list pyval := dict_get "id" <$> rs.

Inductive schedule : Type :=
| OneShot (v : pyval)
| Recurring (cron : pyval).

(** The kind of a stored record, as the module tells them apart: the
    [datetime] key is looked at first, then [cron]. *)
Definition schedule_of (r : reminder) : option schedule :=
  match r !! "datetime" with
  | Some v => Some (OneShot v)
  | None =>
      match r !! "cron" with
      | Some c => Some (Recurring c)
      | None => None
      end
  end.

(** A record of the data model: it has a schedule, and the instant of a
    one-shot schedule is in the fixed format. *)
Definition storable (r : reminder) : Prop :=
  match schedule_of r with
  | Some (OneShot v) => exists t, py_strptime v = Ok t
  | Some (Recurring _) => True
  | None => False
  end.

(** The listing as the specification words it: recurring, or one-shot
    with an instant not before [n]. *)
Definition listed (n : datetime) (r : reminder) : bool :=
  match schedule_of r with
  | Some (Recurring _) => true
  | Some (OneShot v) =>
      match py_strptime v with
      | Ok t => dt_geb t n
      | Raise _ => false
      end
  | None => false
  end.

(** [listUpcoming] as the specification words it. *)
Definition listUpcoming_spec (n : datetime) (rs : list reminder)
  : list reminder :=
  filter (fun r => listed n r) rs.

(** The condition of the comprehension, when it does not raise. *)
Definition parses (r : reminder) : Prop :=
  match r !! "datetime" with
  | Some v => exists t, py_strptime v = Ok t
  | None => True
  end.

(** The value of that condition. *)
Definition due (n : datetime) (r : reminder) : bool :=
  match r !! "datetime" with
  | Some v =>
      match py_strptime v with
      | Ok t => dt_geb t n
      | Raise _ => false
      end
  | None => true
  end.

(** ** Startup *)

(** A record startup can arm: the instant of a one-shot record is in the
    fixed format, the expression of a recurring one has its five fields. *)
Definition armable (r : reminder) : Prop :=
  match schedule_of r with
  | Some (OneShot v) => exists t, py_strptime v = Ok t
  | Some (Recurring c) => exists f, py_parse_cron c = Ok f
  | None => True
  end.

(** Lines 45-49 seen from outside: a record with an id is left alone, a
    record without one receives an identifier drawn from [uuid4]. *)
Definition id_assigned (r r' : reminder) : Prop :=
  match r !! "id" with
  | Some _ => r' = r
  | None => exists n, r' = <["id" := PStr (uuid4 n)]> r
  end.

(** What startup does with the record [r] of the bucket of [g]: [r'] is
    the record afterwards and [js] the jobs submitted for it.  The clock
    readings of the run are those numbered from [lo] up to [hi]. *)
Definition reconciled (lo hi : nat) (g : string) (r r' : reminder)
    (js : list job_request) : Prop :=
  id_assigned r r' /\ is_Some (r' !! "id") /\
  match schedule_of r' with
  | Some (OneShot v) =>
      exists t n, py_strptime v = Ok t /\ (lo <= n < hi)%nat /\
        if dt_ltb t (clock n)
        then js = [] /\
             forall later, dt_geb later (clock n) = true ->
                           due later r' = false
        else js = [mkJob (dict_get "id" r') (DateTrigger t) (g, r') 60]
  | Some (Recurring c) =>
      exists f, py_parse_cron c = Ok f /\
        js = [mkJob (dict_get "id" r') (CronTrigger f) (g, r') 60]
  | None => js = []
  end.

(** The records of one bucket, in order, with the jobs in the order of
    submission. *)
Inductive group_reconciled (lo hi : nat) (g : string)
  : list reminder -> list reminder -> list job_request -> Prop :=
| group_nil : group_reconciled lo hi g [] [] []
| group_cons r r' js rs rs' jss :
    reconciled lo hi g r r' js ->
    group_reconciled lo hi g rs rs' jss ->
    group_reconciled lo hi g (r :: rs) (r' :: rs') (js ++ jss).

(** The same over the buckets of the document. *)
Inductive store_reconciled (lo hi : nat)
  : store -> store -> list job_request -> Prop :=
| store_nil : store_reconciled lo hi [] [] []
| store_cons g rs rs' js d d' jss :
    group_reconciled lo hi g rs rs' js ->
    store_reconciled lo hi d d' jss ->
    store_reconciled lo hi ((g, rs) :: d) ((g, rs') :: d') (js ++ jss).

End Vocabulary.

(** * The handlers around the core

    [set_reminder], [set_multiple_reminders], [reminder_ls] and
    [_reminder_callback].  The first two catch [ValueError] and print the
    exception, so two more facts about the collaborators are needed. *)

(** [strptime_error s] is [str(e)] for the [ValueError] that [strptime]
    raises on the string [s]; [is_value_error msg] tells whether the
    exception the engine raised with the message [msg] is a [ValueError]. *)
Class HostErrors : Type := {
  strptime_error : string -> string;
  is_value_error : string -> bool
}.

Section Handlers.
Context `{H : Host} `{HE : HostErrors}.

Notation "x <- m ;; k" := (bind m (fun x => k))
  (at level 100, m at next level, right associativity).
Notation "m ;;; k" := (bind m (fun _ => k))
  (at level 100, right associativity).

(** A value inside an f-string. *)
Definition py_format (v : pyval) : string :=
  match v with
  | PNone => "None"
  | PStr s => s
  end.

(** [a + v] with [a] a string. *)
Definition str_add (a : string) (v : pyval) : result string :=
  match v with
  | PNone => Raise TypeError
  | PStr s => Ok (a +:+ s)
  end.

(** [v + b] with [b] a string. *)
Definition add_str (v : pyval) (b : string) : result string :=
  match v with
  | PNone => Raise TypeError
  | PStr s => Ok (s +:+ b)
  end.

(** [d.get(k, "")] *)
Definition dict_get_str (k : string) (d : reminder) : pyval :=
  default (PStr "") (d !! k).

(** ** [except ValueError as e]

    The text [str(e)] of an exception raised by [_add_single_reminder]
    when the handler catches it, [None] when the exception escapes.
    [datetime_str] is the argument the call was made with. *)
Definition msg_no_schedule : string :=
  "The cron_expression and datetime_str cannot be both None.".

Definition caught_value_error (datetime_str : pyval) (e : exn)
  : option string :=
  match e with
  | ValueError_no_schedule => Some msg_no_schedule
  | StrptimeError => Some (strptime_error (py_format datetime_str))
  | EngineError msg => if is_value_error msg then Some msg else None
  | _ => None
  end.

Definition msg_unsupported : string := "reminder 暂不支持 QQ 官方机器人。".

Definition msg_footer : string :=
  nl +:+ nl +:+ "使用 /reminder ls 查看所有待办事项。" +:+ nl
  +:+ "使用 /tool off astrbot_plugin_reminder 关闭此功能。".

(** ** [set_reminder] *)

Definition msg_set (text_display time_display : string) : string :=
  "成功设置待办事项。" +:+ nl +:+ "内容: " +:+ text_display +:+ nl
  +:+ "时间: " +:+ time_display +:+ msg_footer.

Definition msg_set_failed (e : string) : string :=
  "设置待办事项失败: " +:+ e.

Definition set_reminder (platform_name unified_msg_origin : string)
    (text datetime_str cron_expression human_readable_cron : pyval)
  : M unit :=
  if decide (platform_name = "qq_official") then yield msg_unsupported
  else
    added <- try_ (_add_single_reminder unified_msg_origin text datetime_str
                     cron_expression human_readable_cron) ;;
    match added with
    | Ok display =>
        _save_data ;;;
        yield (msg_set display.1 display.2)
    | Raise e =>
        match caught_value_error datetime_str e with
        | Some text_of_e => yield (msg_set_failed text_of_e)
        | None => raise e
        end
    end.

(** ** [set_multiple_reminders] *)

Definition msg_batch_set (text_display time_display : string) : string :=
  "成功设置: " +:+ text_display +:+ " - " +:+ time_display.

(** [f"设置失败 ({r.get('text', '未知事项')}): {e}"] *)
Definition msg_batch_failed (r : reminder) (e : string) : string :=
  "设置失败 ("
  +:+ match r !! "text" with
      | Some v => py_format v
      | None => "未知事项"
      end
  +:+ "): " +:+ e.

(** The loop over the entries: the result lines, in order.  An exception
    that is not a [ValueError] leaves the loop. *)
Fixpoint add_each (unified_msg_origin : string) (reminders : list reminder)
  : M (list string) :=
  match reminders with
  | [] => ret []
  | r :: reminders' =>
      added <- try_ (_add_single_reminder unified_msg_origin
                       (dict_get "text" r) (dict_get "datetime_str" r)
                       (dict_get "cron_expression" r)
                       (dict_get "human_readable_cron" r)) ;;
      line <- match added with
              | Ok display => ret (msg_batch_set display.1 display.2)
              | Raise e =>
                  match caught_value_error (dict_get "datetime_str" r) e with
                  | Some text_of_e => ret (msg_batch_failed r text_of_e)
                  | None => raise e
                  end
              end ;;
      results <- add_each unified_msg_origin reminders' ;;
      ret (line :: results)
  end.

Definition msg_batch (results : list string) : string :=
  "批量设置待办事项完成:" +:+ nl +:+ String.concat nl results +:+ msg_footer.

Definition set_multiple_reminders (platform_name unified_msg_origin : string)
    (reminders : list reminder) : M unit :=
  if decide (platform_name = "qq_official") then yield msg_unsupported
  else
    results <- add_each unified_msg_origin reminders ;;
    _save_data ;;;
    yield (msg_batch results).

(** ** [reminder_ls] *)

Definition msg_nothing_listed : string := "没有正在进行的待办事项。".
Definition ls_header : string := "正在进行的待办事项：" +:+ nl.
Definition ls_footer : string :=
  nl +:+ "使用 /reminder rm <id> 删除待办事项。" +:+ nl.

(** Lines 319-322: the time shown for one record. *)
Definition ls_time (r : reminder) : result string :=
  match nonempty (dict_get_str "datetime" r) with
  | Some time_ => Ok time_
  | None =>
      let cron_expr := dict_get_str "cron" r in
      add_str (dict_get_str "cron_h" r)
              ("(Cron: " +:+ py_format cron_expr +:+ ")")
  end.

(** Line 323: the line of the record at index [i]. *)
Definition ls_line (i : nat) (r : reminder) : result string :=
  rbind (ls_time r) (fun time_ =>
  rbind (dict_item "text" r) (fun text =>
  Ok (pretty (S i) +:+ ". " +:+ py_format text +:+ " - " +:+ time_ +:+ nl))).

(** The loop of lines 318-323, from index [i] on. *)
Fixpoint ls_lines (i : nat) (rs : list reminder) : result string :=
  match rs with
  | [] => Ok ""
  | r :: rs' =>
      rbind (ls_line i r) (fun line =>
      rbind (ls_lines (S i) rs') (fun rest => Ok (line +:+ rest)))
  end.

Definition reminder_ls (unified_msg_origin : string) : M unit :=
  reminders <- get_upcoming_reminders unified_msg_origin ;;
  match reminders with
  | [] => yield msg_nothing_listed
  | _ =>
      lines <- lift (ls_lines 0 reminders) ;;
      yield (ls_header +:+ lines +:+ ls_footer)
  end.

(** ** [_reminder_callback]

    The callback logs one line, then builds and sends one message.  The
    result is the line logged together with the message and the context it
    goes to, or with the exception raised while building it. *)
Definition msg_activated (text : pyval) (unified_msg_origin : string)
  : string :=
  "Reminder Activated: " +:+ py_format text +:+ ", created by "
  +:+ unified_msg_origin.

(** Lines 361-367: the text of the notification. *)
Definition notification (d : reminder) : result string :=
  rbind (dict_item "text" d) (fun text =>
  rbind (str_add ("待办提醒: " +:+ nl +:+ nl) text) (fun m1 =>
  rbind (str_add (m1 +:+ nl +:+ "时间: ") (dict_get_str "datetime" d))
    (fun m2 => str_add m2 (dict_get_str "cron_h" d)))).

Definition _reminder_callback (unified_msg_origin : string) (d : reminder)
  : result (string * result (string * string)) :=
  rbind (dict_item "text" d) (fun text =>
  Ok (msg_activated text unified_msg_origin,
      rbind (notification d) (fun m => Ok (unified_msg_origin, m)))).

End Handlers.

(** * Vocabulary of the further statements *)

Section MoreVocabulary.
Context `{H : Host} `{HE : HostErrors}.

(** The record an add appends, whatever happens afterwards. *)
Definition new_record (text dts cron h : pyval) (id : string) : reminder :=
  match nonempty cron with
  | Some c => cron_record text id c h
  | None => date_record text id (default "" (nonempty dts))
  end.

(** What startup may do to one record: nothing, or, when it has no id,
    insert one drawn from [uuid4]. *)
Definition id_kept (r r' : reminder) : Prop :=
  match r !! "id" with
  | Some _ => r' = r
  | None => r' = r \/ exists n, r' = <["id" := PStr (uuid4 n)]> r
  end.

(** The same over a document: the contexts and the records stay in place. *)
Definition same_shape (d d' : store) : Prop :=
  Forall2 (fun e e' => e'.1 = e.1 /\ Forall2 id_kept e.2 e'.2) d d'.

(** The state after [_save_data] and one reply. *)
Definition saved_and_replied (text : string) (st : state) : state :=
  mkState (reminder_data st) (scheduler st) (reminder_data st)
          (uuid_drawn st) (clock_reads st) (log st) (replies st ++ [text])
          (calls st).

Definition replied (text : string) (st : state) : state :=
  mkState (reminder_data st) (scheduler st) (reminder_file st)
          (uuid_drawn st) (clock_reads st) (log st) (replies st ++ [text])
          (calls st).

(** The add made for one entry of the batch. *)
Definition entry_add (umo : string) (r : reminder) : M (string * string) :=
  _add_single_reminder umo (dict_get "text" r) (dict_get "datetime_str" r)
    (dict_get "cron_expression" r) (dict_get "human_readable_cron" r).

(** The line of the entry, [None] when its exception leaves the loop. *)
Definition entry_line (r : reminder) (added : result (string * string))
  : option string :=
  match added with
  | Ok display => Some (msg_batch_set display.1 display.2)
  | Raise e =>
      msg_batch_failed r <$> caught_value_error (dict_get "datetime_str" r) e
  end.

(** An entry whose cron expression has fewer than five fields. *)
Definition short_cron_entry (r : reminder) : Prop :=
  exists c, nonempty (dict_get "cron_expression" r) = Some c /\
            (length (split_space c) < 5)%nat.

(** An entry with no cron expression and the datetime [s]. *)
Definition datetime_entry (s : string) (r : reminder) : Prop :=
  nonempty (dict_get "cron_expression" r) = None /\
  nonempty (dict_get "datetime_str" r) = Some s.

Definition notification_head (text : string) : string :=
  "待办提醒: " +:+ nl +:+ nl +:+ text +:+ nl +:+ "时间: ".

End MoreVocabulary.

(** ** A deterministic host for running the operations

    A stand-in for the collaborators: the engine is the list of the jobs it
    holds, keyed by id; the parser accepts exactly the zero-padded form
    [YYYY-MM-DD HH:MM] of a valid date, on which it agrees with
    [strptime]; the clock starts on 2025-01-01 00:00:00 and advances by one
    microsecond per reading. *)
Module Fake.

Definition holds (id : pyval) (e : list job_request) : bool :=
  bool_decide (Exists (fun j => job_id j = id) e).

Definition fake_add_job (j : job_request) (e : list job_request)
  : option string * list job_request :=
  if holds (job_id j) e
  then (Some "Job identifier conflicts with an existing job", e)
  else (None, e ++ [j]).

Definition fake_remove_job (id : pyval) (e : list job_request)
  : option string * list job_request :=
  if holds id e
  then (None, filter (fun j => job_id j <> id) e)
  else (Some "No job by the id was found", e).

Definition digit (c : ascii) : option Z :=
  let n := Z.of_nat (nat_of_ascii c) in
  if (48 <=? n) && (n <=? 57) then Some (n - 48) else None.

Fixpoint number (acc : Z) (cs : list ascii) : option Z :=
  match cs with
  | [] => Some acc
  | c :: cs' => d ← digit c; number (10 * acc + d) cs'
  end.

Definition is_leap (y : Z) : bool :=
  ((y mod 4 =? 0) && negb (y mod 100 =? 0)) || (y mod 400 =? 0).

Definition days_in_month (y m : Z) : Z :=
  if m =? 2 then (if is_leap y then 29 else 28)
  else if (m =? 4) || (m =? 6) || (m =? 9) || (m =? 11) then 30 else 31.

Definition sep_at (i : nat) (c : ascii) (cs : list ascii) : bool :=
  bool_decide (cs !! i = Some c).

Definition fake_strptime (s : string) : option datetime :=
  let cs := list_ascii_of_string s in
  if (length cs =? 16)%nat && sep_at 4 "-" cs && sep_at 7 "-" cs
     && sep_at 10 " " cs && sep_at 13 ":" cs
  then
    y ← number 0 (take 4 cs);
    m ← number 0 (take 2 (drop 5 cs));
    d ← number 0 (take 2 (drop 8 cs));
    hh ← number 0 (take 2 (drop 11 cs));
    mm ← number 0 (take 2 (drop 14 cs));
    if (1 <=? y) && (1 <=? m) && (m <=? 12) && (1 <=? d)
       && (d <=? days_in_month y m) && (hh <=? 23) && (mm <=? 59)
    then Some (mkDatetime y m d hh mm 0 0)
    else None
  else None.

Definition fake_uuid4 (n : nat) : string :=
  "uuid-" +:+ string_of_list_ascii (replicate n "i"%char).

Definition fake_clock (n : nat) : datetime :=
  mkDatetime 2025 1 1 0 0 0 (Z.of_nat n).

Definition host : Host := {|
  engine := list job_request;
  add_job := fake_add_job;
  remove_job := fake_remove_job;
  strptime := fake_strptime;
  uuid4 := fake_uuid4;
  clock := fake_clock
|}.

(** The engine of this host raises for an id conflict only, which is not
    a [ValueError]; the parser's message names the string. *)
Definition host_errors : HostErrors := {|
  strptime_error := fun s =>
    "time data '" +:+ s +:+ "' does not match format '%Y-%m-%d %H:%M'";
  is_value_error := fun _ => false
|}.

(** An instance over a given document and engine, before any operation. *)
Definition boot (d : store) (jobs : list job_request) : state (H := host) :=
  mkState (H := host) d jobs d 0%nat 0%nat [] [] [].

(** A document for the examples: an overdue one-shot record, a one-shot
    record still to come, a recurring record, and in another context a
    recurring record written without an id. *)
Definition dentist : reminder :=
  date_record (PStr "Dentist") "id-dentist" "2000-01-01 00:00".
Definition milk : reminder :=
  date_record (PStr "Buy milk") "id-milk" "2030-01-01 09:00".
Definition standup : reminder :=
  cron_record (PStr "Standup") "id-standup" "0 9 * * 1" (PStr "每周一9点").
Definition plants : reminder :=
  <["cron" := PStr "30 8 * * *"]> {["text" := PStr "Water plants"]}.

Definition sample : store :=
  [("ctx", [dentist; milk; standup]); ("other", [plants])].

(** The instance once startup has run over [sample]. *)
Definition started : state (H := host) :=
  (_init_scheduler (H := host) (boot sample [])).2.

(** A record whose datetime the parser rejects. *)
Definition someday : reminder :=
  date_record (PStr "Call back") "id-someday" "tomorrow".

(** Entries of a batch: a one-shot entry, an entry without schedule, an
    entry whose cron expression has two fields, and an entry whose
    datetime the parser rejects. *)
Definition entry_milk : reminder :=
  <["datetime_str" := PStr "2030-01-01 09:00"]> {["text" := PStr "Buy milk"]}.
Definition entry_short : reminder :=
  <["cron_expression" := PStr "every monday"]> {["text" := PStr "Standup"]}.
Definition entry_someday : reminder :=
  <["datetime_str" := PStr "tomorrow"]> {["text" := PStr "Call back"]}.

End Fake.

(** * Properties *)

(** ** Splitting on spaces *)

Lemma split_space_not_nil (s : string) : split_space s <> [].
Proof.
  destruct s as [|c s]; simpl; [done|].
  case_decide; [done|]. by destruct (split_space s).
Qed.

(** Joining the fields with single spaces gives the expression back. *)
Lemma join_split_space (s : string) : join_space (split_space s) = s.
Proof.
  induction s as [|c s IH]; [done|].
  simpl. case_decide as Hc.
  - subst c. unfold join_space in *. simpl.
    pose proof (split_space_not_nil s) as Hne.
    destruct (split_space s) as [|w ws]; [done|].
    simpl in *. by rewrite IH.
  - pose proof (split_space_not_nil s) as Hne.
    destruct (split_space s) as [|w ws]; [done|].
    unfold join_space in *. simpl in *.
    destruct ws as [|w' ws]; simpl in *; by rewrite <- IH.
Qed.

(** No field contains a space. *)
Lemma split_space_fields (s : string) :
  Forall (fun w => has_space w = false) (split_space s).
Proof.
  induction s as [|c s IH]; simpl.
  - by constructor.
  - case_decide as Hc.
    + by constructor.
    + destruct (split_space s) as [|w ws]; simpl.
      * constructor; [|done]. simpl. by rewrite bool_decide_eq_false_2.
      * inversion IH; subst. constructor; [|done].
        simpl. by rewrite bool_decide_eq_false_2.
Qed.

(** ** [_parse_cron_expr] *)

Lemma parse_cron_expr_cases (s : string) :
  match split_space s with
  | f0 :: f1 :: f2 :: f3 :: f4 :: _ =>
      _parse_cron_expr s = Ok (mkCron f0 f1 f2 f3 f4)
  | _ => _parse_cron_expr s = Raise IndexError
  end.
Proof.
  unfold _parse_cron_expr.
  destruct (split_space s) as [|f0 [|f1 [|f2 [|f3 [|f4 rest]]]]]; done.
Qed.

(** A tab is not a separator: the expression is one field. *)
Example parse_cron_expr_tabs :
  let tab := String (ascii_of_nat 9) EmptyString in
  _parse_cron_expr ("0" +:+ tab +:+ "9" +:+ tab +:+ "*" +:+ tab +:+ "*" +:+ tab +:+ "1")
  = Raise IndexError.
Proof. reflexivity. Qed.

(** ** The document *)

Lemma store_lookup_set_eq (k : string) (v : list reminder) (d : store) :
  store_lookup k (store_set k v d) = Some v.
Proof.
  induction d as [|[k' v'] d IH]; simpl.
  - by rewrite decide_True.
  - destruct (decide (k' = k)) as [->|Hne]; simpl.
    + by rewrite decide_True.
    + by rewrite decide_False.
Qed.

Lemma store_lookup_set_ne (k k' : string) (v : list reminder) (d : store) :
  k <> k' -> store_lookup k' (store_set k v d) = store_lookup k' d.
Proof.
  intros Hne. induction d as [|[k0 v0] d IH]; simpl.
  - by rewrite decide_False.
  - destruct (decide (k0 = k)) as [->|Hne0]; simpl.
    + by rewrite !decide_False.
    + by rewrite IH.
Qed.

Lemma store_set_absent (k : string) (v : list reminder) (d : store) :
  store_lookup k d = None -> store_set k v d = d ++ [(k, v)].
Proof.
  induction d as [|[k' v'] d IH]; simpl; [done|].
  destruct (decide (k' = k)); [done|]. intros Hd. by rewrite IH.
Qed.

Lemma bucket_set_eq (k : string) (v : list reminder) (d : store) :
  bucket k (store_set k v d) = v.
Proof. unfold bucket. by rewrite store_lookup_set_eq. Qed.

Lemma bucket_set_ne (k k' : string) (v : list reminder) (d : store) :
  k <> k' -> bucket k' (store_set k v d) = bucket k' d.
Proof. intros Hne. unfold bucket. by rewrite store_lookup_set_ne. Qed.

Lemma filter_bool_ext {A} (f g : A -> bool) (l : list A) :
  Forall (fun x => f x = g x) l ->
  filter (fun x => f x) l = filter (fun x => g x) l.
Proof.
  induction 1 as [|x l Hx Hl IH]; [done|].
  rewrite !filter_cons, IH, Hx. done.
Qed.

(** ** The removal loop *)

Lemma pop_matching_no_match (jid : pyval) (rs : list reminder) :
  Forall (fun r => dict_get "id" r <> jid) rs -> pop_matching jid rs = rs.
Proof.
  induction 1 as [|r rs Hr Hrs IH]; [done|].
  simpl. rewrite decide_False by done. by rewrite IH.
Qed.

Lemma not_in_ids (jid : pyval) (rs : list reminder) :
  jid ∉ ids rs -> Forall (fun r => dict_get "id" r <> jid) rs.
Proof.
  intros Hn. apply Forall_forall. intros r Hr Heq. apply Hn.
  unfold ids. apply list_elem_of_fmap. by exists r.
Qed.

Lemma filter_all {A} (P : A -> Prop) `{!forall x, Decision (P x)}
    (l : list A) :
  Forall P l -> filter P l = l.
Proof.
  induction 1 as [|x l Hx Hl IH]; [done|].
  rewrite filter_cons_True by done. by rewrite IH.
Qed.

(** With pairwise distinct ids the loop is the filter it is meant to be. *)
Lemma pop_matching_unique (jid : pyval) (rs : list reminder) :
  NoDup (ids rs) ->
  pop_matching jid rs = filter (fun r => dict_get "id" r <> jid) rs.
Proof.
  induction rs as [|r rs IH]; [done|].
  unfold ids. rewrite fmap_cons. intros [Hr Hnd]%NoDup_cons.
  rewrite filter_cons. simpl.
  destruct (decide (dict_get "id" r = jid)) as [Heq|Hne].
  - subst jid. rewrite decide_False by (by intros Hx; apply Hx).
    apply not_in_ids in Hr. rewrite (filter_all _ _ Hr).
    destruct rs as [|r2 rs]; [done|].
    inversion Hr; subst. by rewrite pop_matching_no_match.
  - rewrite decide_True by done. by rewrite IH.
Qed.

Lemma filter_other_ids (r : reminder) (rs : list reminder) :
  NoDup (ids rs) -> r ∈ rs ->
  exists pre post, rs = pre ++ r :: post /\
    filter (fun x => dict_get "id" x <> dict_get "id" r) rs = pre ++ post.
Proof.
  intros Hnd Hin.
  destruct (list_elem_of_split _ _ Hin) as (pre & post & ->).
  exists pre, post. split; [done|].
  unfold ids in Hnd. rewrite fmap_app, fmap_cons in Hnd.
  apply NoDup_app in Hnd as (_ & Hdisj & [Hpost _]%NoDup_cons).
  assert (Hpre : Forall (fun x => dict_get "id" x <> dict_get "id" r) pre).
  { apply Forall_forall. intros x Hx Heq.
    apply (Hdisj (dict_get "id" x)).
    - apply list_elem_of_fmap. by exists x.
    - rewrite Heq. left. }
  apply not_in_ids in Hpost.
  rewrite filter_app, filter_cons_False by (by intros Hx; apply Hx).
  by rewrite (filter_all _ _ Hpre), (filter_all _ _ Hpost).
Qed.

(** ** The order on datetimes *)

Lemma lex_ltb_le_trans (a b c : list Z) :
  lex_ltb a b = true -> lex_ltb c b = false -> lex_ltb a c = true.
Proof.
  revert b c. induction a as [|x a IH]; intros [|y b] [|z c]; simpl;
    try done.
  intros Hab Hcb.
  apply orb_true_iff in Hab. apply orb_false_iff in Hcb as [Hzy Hcb].
  apply Z.ltb_ge in Hzy. apply orb_true_iff.
  destruct Hab as [Hxy%Z.ltb_lt|[Hxy%Z.eqb_eq Hab]%andb_true_iff].
  - left. apply Z.ltb_lt. lia.
  - subst y. destruct (Z.eqb_spec z x) as [->|Hne].
    + right. rewrite Z.eqb_refl. simpl in *. by eapply IH.
    + left. apply Z.ltb_lt. lia.
Qed.

(** An instant before [n] is before every instant not before [n]. *)
Lemma dt_ltb_later (t n later : datetime) :
  dt_ltb t n = true -> dt_geb later n = true -> dt_geb t later = false.
Proof.
  unfold dt_geb, dt_ltb. intros Ht Hl.
  apply negb_true_iff in Hl. apply negb_false_iff.
  by eapply lex_ltb_le_trans.
Qed.

Section Facts.
Context `{H : Host}.

(** ** [_add_single_reminder], step by step *)

Lemma ensure_bucket_lookup umo st :
  store_lookup umo (reminder_data (ensure_bucket umo st))
  = Some (bucket umo (reminder_data st)).
Proof.
  unfold ensure_bucket, bucket.
  destruct (store_lookup umo (reminder_data st)) as [l|] eqn:Hl; simpl.
  - done.
  - by rewrite store_lookup_set_eq.
Qed.

Lemma add_none_run umo text dts cron h st :
  nonempty cron = None -> nonempty dts = None ->
  _add_single_reminder umo text dts cron h st
  = (Raise ValueError_no_schedule, ensure_bucket umo st).
Proof.
  intros Hc Hd. unfold _add_single_reminder, bind, get_data, ensure_bucket.
  rewrite Hc, Hd.
  by destruct (store_lookup umo (reminder_data st)).
Qed.

Ltac step_add Hl Hs :=
  unfold ret, put_data, new_uuid, bucket_append, bind, get_data, lift,
    scheduler_add_job, engine_step, bucket in *; simpl in *;
  rewrite ?Hs, ?Hl; rewrite ?Hs; simpl.

Ltac case_engine :=
  match goal with
  | |- context [(add_job ?j ?e).1] => by destruct (add_job j e).1
  end.

Lemma add_cron_run umo text dts cron h st c :
  nonempty cron = Some c ->
  let d := cron_record text (uuid4 (uuid_drawn st)) c h in
  let st2 := appended umo d st in
  _add_single_reminder umo text dts cron h st
  = match _parse_cron_expr c with
    | Raise e => (Raise e, st2)
    | Ok fields =>
        let j := mkJob (PStr (uuid4 (uuid_drawn st))) (CronTrigger fields)
                       (umo, d) 60 in
        (match (add_job j (scheduler st)).1 with
         | None => Ok (text_of text, cron_display h c)
         | Some msg => Raise (EngineError msg)
         end,
         engine_step (add_job j (scheduler st)).2 (AddJob j) st2)
    end.
Proof.
  intros Hc d st2.
  pose proof (ensure_bucket_lookup umo st) as Hl.
  unfold _add_single_reminder, bind, get_data. rewrite Hc.
  unfold st2, appended, d, cron_record, text_of, cron_display.
  unfold ensure_bucket in *.
  destruct (store_lookup umo (reminder_data st)) as [l|] eqn:Hs;
    step_add Hl Hs;
    (destruct (_parse_cron_expr c) as [f|e]; simpl; [case_engine|done]).
Qed.

Lemma add_date_run umo text dts cron h st s :
  nonempty cron = None -> nonempty dts = Some s ->
  let d := date_record text (uuid4 (uuid_drawn st)) s in
  let st2 := appended umo d st in
  _add_single_reminder umo text dts cron h st
  = match py_strptime (PStr s) with
    | Raise e => (Raise e, st2)
    | Ok t =>
        let j := mkJob (PStr (uuid4 (uuid_drawn st))) (DateTrigger t)
                       (umo, d) 60 in
        (match (add_job j (scheduler st)).1 with
         | None => Ok (text_of text, s)
         | Some msg => Raise (EngineError msg)
         end,
         engine_step (add_job j (scheduler st)).2 (AddJob j) st2)
    end.
Proof.
  intros Hc Hd d st2.
  pose proof (ensure_bucket_lookup umo st) as Hl.
  unfold _add_single_reminder, bind, get_data. rewrite Hc, Hd.
  unfold st2, appended, d, date_record, text_of.
  unfold ensure_bucket in *.
  destruct (store_lookup umo (reminder_data st)) as [l|] eqn:Hs;
    step_add Hl Hs;
    (destruct (strptime s) as [t|]; simpl; [case_engine|done]).
Qed.

(** C8, as amended: the expression is cut at single spaces; with fewer than
    five fields the parse raises [IndexError] and the add submits no job,
    and with five or more the first five fields are used and the rest is
    ignored. *)
Theorem parse_cron_expr_first_five (s : string) :
  (_parse_cron_expr s = Raise IndexError <->
   (length (split_space s) < 5)%nat) /\
  (forall f0 f1 f2 f3 f4 rest,
     split_space s = f0 :: f1 :: f2 :: f3 :: f4 :: rest ->
     _parse_cron_expr s = Ok (mkCron f0 f1 f2 f3 f4)) /\
  join_space (split_space s) = s /\
  (forall umo text dts h st,
     s <> "" -> (length (split_space s) < 5)%nat ->
     let out := _add_single_reminder umo text dts (PStr s) h st in
     out.1 = Raise IndexError /\ calls out.2 = calls st).
Proof.
  pose proof (parse_cron_expr_cases s) as Hc.
  assert (Hshort : (length (split_space s) < 5)%nat ->
                   _parse_cron_expr s = Raise IndexError).
  { destruct (split_space s) as [|f0 [|f1 [|f2 [|f3 [|f4 rest]]]]];
      simpl; intros Hx; try done; lia. }
  split; [|split; [|split]].
  - split; [|done].
    destruct (split_space s) as [|f0 [|f1 [|f2 [|f3 [|f4 rest]]]]];
      simpl; intros Hx; try lia.
    rewrite Hc in Hx. discriminate.
  - intros f0 f1 f2 f3 f4 rest Hs. by rewrite Hs in Hc.
  - apply join_split_space.
  - intros umo text dts h st Hne Hlen.
    assert (Hn : nonempty (PStr s) = Some s).
    { simpl. by rewrite decide_False. }
    cbv zeta. rewrite (add_cron_run _ _ _ _ _ _ s Hn).
    by rewrite (Hshort Hlen).
Qed.

Lemma bucket_ensure umo st :
  bucket umo (reminder_data (ensure_bucket umo st))
  = bucket umo (reminder_data st).
Proof.
  unfold bucket at 1. by rewrite ensure_bucket_lookup.
Qed.

Lemma bucket_appended umo d st :
  bucket umo (reminder_data (appended umo d st))
  = bucket umo (reminder_data st) ++ [d].
Proof. unfold appended. simpl. apply bucket_set_eq. Qed.

Lemma parse_cron_expr_raise c e :
  _parse_cron_expr c = Raise e -> e = IndexError.
Proof.
  pose proof (parse_cron_expr_cases c) as Hc.
  destruct (split_space c) as [|f0 [|f1 [|f2 [|f3 [|f4 rest]]]]];
    rewrite Hc; congruence.
Qed.

Lemma py_strptime_str_raise s e :
  py_strptime (PStr s) = Raise e -> e = StrptimeError.
Proof. simpl. destruct (strptime s); congruence. Qed.

Lemma nonempty_Some v s : nonempty v = Some s -> v = PStr s /\ s <> "".
Proof.
  destruct v as [|s']; simpl; [done|].
  case_decide; [done|]. intros [= ->]. done.
Qed.

(** C3, as amended: [ValueError] for a missing schedule is raised exactly
    when neither a cron expression nor a datetime is given (each [None] or
    empty); when both are given the cron expression is used.  In the failing
    case the bucket keeps its size. *)
Theorem add_no_schedule_iff umo text dts cron h st :
  let out := _add_single_reminder umo text dts cron h st in
  (out.1 = Raise ValueError_no_schedule <->
   nonempty cron = None /\ nonempty dts = None) /\
  (out.1 = Raise ValueError_no_schedule ->
   length (bucket umo (reminder_data out.2))
   = length (bucket umo (reminder_data st))).
Proof.
  intros out. unfold out.
  destruct (nonempty cron) as [c|] eqn:Hc.
  - rewrite (add_cron_run _ _ _ _ _ _ c Hc). simpl.
    destruct (_parse_cron_expr c) as [f|e] eqn:Hp; simpl.
    + match goal with
      | |- context [(add_job ?j ?e).1] => destruct (add_job j e).1
      end; (split; [split; [done | by intros [??]] | done]).
    + apply parse_cron_expr_raise in Hp as ->.
      split; [split; [done | by intros [??]] | done].
  - destruct (nonempty dts) as [s|] eqn:Hd.
    + rewrite (add_date_run _ _ _ _ _ _ s Hc Hd).
      destruct (py_strptime (PStr s)) as [t|e] eqn:Hp.
      * cbv zeta. cbn [fst snd].
        match goal with
        | |- context [(add_job ?j ?e).1] => destruct (add_job j e).1
        end; (split; [split; [done | by intros [??]] | done]).
      * apply py_strptime_str_raise in Hp as ->. cbn [fst snd].
        split; [split; [done | by intros [??]] | done].
    + rewrite (add_none_run _ _ _ _ _ _ Hc Hd). cbn [fst snd].
      rewrite bucket_ensure. done.
Qed.

(** C9: on success the display time is the datetime string itself for a
    one-shot reminder; for a recurring one it is ["{label}(Cron: {cron})"]
    when a non-empty label is given and the empty string otherwise. *)
Theorem add_display_time umo text dts cron h st t disp :
  (_add_single_reminder umo text dts cron h st).1 = Ok (t, disp) ->
  match nonempty cron with
  | None => dts = PStr disp
  | Some c =>
      match nonempty h with
      | Some label => disp = label +:+ "(Cron: " +:+ c +:+ ")"
      | None => disp = ""
      end
  end.
Proof.
  destruct (nonempty cron) as [c|] eqn:Hc.
  - rewrite (add_cron_run _ _ _ _ _ _ c Hc).
    destruct (_parse_cron_expr c) as [f|e]; cbv zeta; cbn [fst snd]; [|done].
    match goal with
    | |- context [(add_job ?j ?e).1] => destruct (add_job j e).1
    end; [done|].
    intros [= _ <-]. unfold cron_display. by destruct (nonempty h).
  - destruct (nonempty dts) as [s|] eqn:Hd.
    + rewrite (add_date_run _ _ _ _ _ _ s Hc Hd).
      destruct (py_strptime (PStr s)) as [t0|e]; cbv zeta; cbn [fst snd];
        [|done].
      match goal with
      | |- context [(add_job ?j ?e).1] => destruct (add_job j e).1
      end; [done|].
      intros [= _ <-]. by apply nonempty_Some in Hd as [-> _].
    + by rewrite (add_none_run _ _ _ _ _ _ Hc Hd).
Qed.

(** C10: a failed add for a context the document does not know yet leaves
    that context in the document, mapped to an empty list; nothing else
    changes and the file is not rewritten. *)
Theorem add_failed_creates_bucket umo text dts cron h st :
  store_lookup umo (reminder_data st) = None ->
  nonempty cron = None -> nonempty dts = None ->
  let out := _add_single_reminder umo text dts cron h st in
  out.1 = Raise ValueError_no_schedule /\
  reminder_data out.2 = reminder_data st ++ [(umo, [])] /\
  store_lookup umo (reminder_data out.2) = Some [] /\
  length (bucket umo (reminder_data out.2)) = 0%nat /\
  reminder_file out.2 = reminder_file st /\
  calls out.2 = calls st.
Proof.
  intros Hs Hc Hd out. unfold out.
  rewrite (add_none_run _ _ _ _ _ _ Hc Hd). cbn [fst snd].
  unfold ensure_bucket. rewrite Hs. cbn [reminder_data reminder_file calls].
  rewrite (store_set_absent _ _ _ Hs).
  split; [done|]. split; [done|].
  rewrite <- (store_set_absent _ _ _ Hs), store_lookup_set_eq.
  unfold bucket. rewrite store_lookup_set_eq. done.
Qed.

(** C4, as amended: there is no rollback.  On success the record is the
    last of the bucket and the engine accepted its job; the missing-schedule
    error leaves the bucket as it was; every other failure (the cron
    expression or the datetime does not parse, or the engine refuses the
    job) leaves the new record appended to the bucket. *)
Theorem add_effects umo text dts cron h st :
  let out := _add_single_reminder umo text dts cron h st in
  let b := bucket umo (reminder_data st) in
  let b' := bucket umo (reminder_data out.2) in
  match out.1 with
  | Ok (t, _) =>
      exists d j, b' = b ++ [d] /\ d !! "text" = Some (PStr t) /\
        job_args j = (umo, d) /\ job_id j = dict_get "id" d /\
        calls out.2 = calls st ++ [AddJob j] /\
        (add_job j (scheduler st)).1 = None /\
        scheduler out.2 = (add_job j (scheduler st)).2
  | Raise ValueError_no_schedule =>
      b' = b /\ calls out.2 = calls st /\ scheduler out.2 = scheduler st
  | Raise (EngineError msg) =>
      exists d j, b' = b ++ [d] /\ job_args j = (umo, d) /\
        calls out.2 = calls st ++ [AddJob j] /\
        (add_job j (scheduler st)).1 = Some msg
  | Raise _ =>
      exists d, b' = b ++ [d] /\ calls out.2 = calls st /\
        scheduler out.2 = scheduler st
  end.
Proof.
  cbv zeta.
  destruct (nonempty cron) as [c|] eqn:Hc.
  - rewrite (add_cron_run _ _ _ _ _ _ c Hc).
    destruct (_parse_cron_expr c) as [f|e] eqn:Hp; cbv zeta; cbn [fst snd].
    + unfold engine_step. cbn [reminder_data calls scheduler].
      rewrite bucket_appended.
      match goal with
      | |- context [(add_job ?j ?e).1] => destruct (add_job j e).1 eqn:Hj
      end; eexists; eexists; rewrite ?Hj; repeat split; try done.
    + apply parse_cron_expr_raise in Hp as ->.
      rewrite bucket_appended. by eexists.
  - destruct (nonempty dts) as [s|] eqn:Hd.
    + rewrite (add_date_run _ _ _ _ _ _ s Hc Hd).
      destruct (py_strptime (PStr s)) as [t0|e] eqn:Hp; cbv zeta;
        cbn [fst snd].
      * unfold engine_step. cbn [reminder_data calls scheduler].
        rewrite bucket_appended.
        match goal with
        | |- context [(add_job ?j ?e).1] => destruct (add_job j e).1 eqn:Hj
        end; eexists; eexists; rewrite ?Hj; repeat split; try done.
      * apply py_strptime_str_raise in Hp as ->.
        rewrite bucket_appended. by eexists.
    + rewrite (add_none_run _ _ _ _ _ _ Hc Hd). cbn [fst snd].
      rewrite bucket_ensure. unfold ensure_bucket.
      by destruct (store_lookup umo (reminder_data st)).
Qed.

(** The ids of a bucket stay pairwise distinct under an add that draws an
    identifier the bucket does not hold yet. *)
Lemma add_keeps_ids_distinct umo text dts cron h st :
  NoDup (ids (bucket umo (reminder_data st))) ->
  PStr (uuid4 (uuid_drawn st)) ∉ ids (bucket umo (reminder_data st)) ->
  NoDup (ids (bucket umo
                (reminder_data (_add_single_reminder umo text dts cron h st).2))).
Proof.
  intros Hnd Hfresh.
  assert (Happ : forall d, dict_get "id" d = PStr (uuid4 (uuid_drawn st)) ->
            NoDup (ids (bucket umo (reminder_data st) ++ [d]))).
  { intros d Hd. unfold ids. rewrite fmap_app. apply NoDup_app.
    split; [done|]. split; [|apply NoDup_singleton].
    intros x Hx. cbn. rewrite Hd. intros ->%list_elem_of_singleton. done. }
  destruct (nonempty cron) as [c|] eqn:Hc.
  - rewrite (add_cron_run _ _ _ _ _ _ c Hc).
    destruct (_parse_cron_expr c); cbv zeta; cbn [snd];
      unfold engine_step; cbn [reminder_data]; rewrite bucket_appended;
      by apply Happ.
  - destruct (nonempty dts) as [s|] eqn:Hd.
    + rewrite (add_date_run _ _ _ _ _ _ s Hc Hd).
      destruct (py_strptime (PStr s)); cbv zeta; cbn [snd];
        unfold engine_step; cbn [reminder_data]; rewrite bucket_appended;
        by apply Happ.
    + rewrite (add_none_run _ _ _ _ _ _ Hc Hd). cbn [snd].
      by rewrite bucket_ensure.
Qed.

(** ** [get_upcoming_reminders] *)

Lemma is_upcoming_due n r : parses r -> is_upcoming n r = Ok (due n r).
Proof.
  unfold parses, is_upcoming, due.
  destruct (r !! "datetime") as [v|]; [|done].
  intros [t ->]. done.
Qed.

Lemma is_upcoming_parses n r b : is_upcoming n r = Ok b -> parses r.
Proof.
  unfold parses, is_upcoming.
  destruct (r !! "datetime") as [v|]; [|done].
  destruct (py_strptime v) as [t|e]; [by eexists|done].
Qed.

Lemma upcoming_filter n rs :
  Forall parses rs -> upcoming n rs = Ok (filter (fun r => due n r) rs).
Proof.
  induction 1 as [|r rs Hr Hrs IH]; [done|].
  simpl. rewrite (is_upcoming_due _ _ Hr), IH. simpl.
  rewrite filter_cons. by destruct (due n r).
Qed.

Lemma upcoming_parses n rs l : upcoming n rs = Ok l -> Forall parses rs.
Proof.
  revert l. induction rs as [|r rs IH]; intros l; [by constructor|].
  simpl. destruct (is_upcoming n r) as [b|e] eqn:Hb; [|done]. simpl.
  destruct (upcoming n rs) as [l0|e] eqn:Hl; [|done].
  intros _. constructor; [by eapply is_upcoming_parses | by eapply IH].
Qed.

Lemma storable_parses r : storable r -> parses r.
Proof.
  unfold storable, parses, schedule_of.
  destruct (r !! "datetime"); [done|]. by destruct (r !! "cron").
Qed.

Lemma storable_due n r : storable r -> due n r = listed n r.
Proof.
  unfold storable, due, listed, schedule_of.
  destruct (r !! "datetime"); [done|]. by destruct (r !! "cron").
Qed.

Lemma get_upcoming_run umo st :
  get_upcoming_reminders umo st
  = match bucket umo (reminder_data st) with
    | [] => (Ok [], st)
    | rs => (upcoming (clock (clock_reads st)) rs, tick st)
    end.
Proof.
  unfold get_upcoming_reminders, bind, get_data.
  destruct (bucket umo (reminder_data st)); [done|].
  unfold now, lift, tick. done.
Qed.

Lemma get_upcoming_frame umo st :
  let st' := (get_upcoming_reminders umo st).2 in
  reminder_data st' = reminder_data st /\
  reminder_file st' = reminder_file st /\
  scheduler st' = scheduler st /\
  calls st' = calls st /\
  log st' = log st /\ replies st' = replies st /\
  uuid_drawn st' = uuid_drawn st.
Proof.
  rewrite get_upcoming_run.
  by destruct (bucket umo (reminder_data st)).
Qed.

(** C2: over a bucket of data-model records, the listing is the bucket
    filtered, in stored order, to the recurring records and the one-shot
    records whose instant is not before the clock reading; the document,
    the file and the engine are left as they were. *)
Theorem get_upcoming_reminders_spec umo st :
  Forall storable (bucket umo (reminder_data st)) ->
  let out := get_upcoming_reminders umo st in
  out.1 = Ok (listUpcoming_spec (clock (clock_reads st))
                (bucket umo (reminder_data st))) /\
  reminder_data out.2 = reminder_data st /\
  reminder_file out.2 = reminder_file st /\
  scheduler out.2 = scheduler st /\
  calls out.2 = calls st.
Proof.
  intros Hwf out.
  destruct (get_upcoming_frame umo st) as (Hd & Hf & Hs & Hc & _).
  split; [|done].
  unfold out. rewrite get_upcoming_run. unfold listUpcoming_spec.
  destruct (bucket umo (reminder_data st)) as [|r rs] eqn:Hb; [done|].
  cbn [fst]. rewrite upcoming_filter.
  - f_equal. apply filter_bool_ext.
    eapply Forall_impl; [exact Hwf|].
    intros x Hx. apply (storable_due _ _ Hx).
  - eapply Forall_impl; [exact Hwf|]. apply storable_parses.
Qed.

(** ** [reminder_rm] *)

Lemma upcoming_is_filter n rs l :
  upcoming n rs = Ok l -> l = filter (fun r => due n r) rs.
Proof.
  intros Hl. pose proof (upcoming_parses _ _ _ Hl) as Hp.
  rewrite (upcoming_filter _ _ Hp) in Hl. congruence.
Qed.

Lemma get_upcoming_nonempty umo st l :
  (get_upcoming_reminders umo st).1 = Ok l -> l <> [] ->
  get_upcoming_reminders umo st = (Ok l, tick st) /\
  upcoming (clock (clock_reads st)) (bucket umo (reminder_data st)) = Ok l /\
  store_lookup umo (reminder_data st)
  = Some (bucket umo (reminder_data st)).
Proof.
  rewrite get_upcoming_run. unfold bucket.
  destruct (store_lookup umo (reminder_data st)) as [[|r rs]|]; simpl;
    intros Hl Hne; try congruence.
  by rewrite Hl.
Qed.

Lemma get_upcoming_subset umo st l r :
  (get_upcoming_reminders umo st).1 = Ok l -> r ∈ l ->
  r ∈ bucket umo (reminder_data st).
Proof.
  rewrite get_upcoming_run.
  destruct (bucket umo (reminder_data st)) as [|r0 rs] eqn:Hb; cbn [fst].
  - intros [= <-]. by intros ?%elem_of_nil.
  - intros Hl%upcoming_is_filter Hr. subst l.
    by apply list_elem_of_filter in Hr as [_ Hr].
Qed.

(** C5, as amended: a position below 1 or above the length of the listing
    changes nothing in the document, the file or the engine; the reply is
    the index-out-of-range text when the listing is not empty and the
    no-reminders text when it is empty. *)
Theorem rm_bad_position umo k st l :
  (get_upcoming_reminders umo st).1 = Ok l ->
  k < 1 \/ k > Z.of_nat (length l) ->
  let out := reminder_rm umo k st in
  out.1 = Ok tt /\
  replies out.2
  = replies st ++ [match l with
                   | [] => msg_no_reminders
                   | _ => msg_out_of_range
                   end] /\
  reminder_data out.2 = reminder_data st /\
  reminder_file out.2 = reminder_file st /\
  scheduler out.2 = scheduler st /\
  calls out.2 = calls st.
Proof.
  intros Hl Hk out. unfold out, reminder_rm, bind.
  destruct (get_upcoming_frame umo st) as (Hd & Hf & Hs & Hc & _ & Hr & _).
  destruct (get_upcoming_reminders umo st) as [res st1]. simpl in *.
  subst res. destruct l as [|r l].
  - unfold yield. simpl. by rewrite Hr.
  - assert ((k <? 1) || (k >? Z.of_nat (length (r :: l))) = true) as ->.
    { apply orb_true_iff. destruct Hk; [left|right]; lia. }
    unfold yield. simpl. by rewrite Hr.
Qed.

(** The state reached by a removal at a valid position. *)
Lemma rm_valid_run umo k st l r s :
  (get_upcoming_reminders umo st).1 = Ok l ->
  1 <= k <= Z.of_nat (length l) ->
  l !! Z.to_nat (k - 1) = Some r ->
  r !! "text" = Some (PStr s) ->
  let jid := dict_get "id" r in
  let rj := remove_job jid (scheduler st) in
  let data' :=
    store_set umo (pop_matching jid (bucket umo (reminder_data st)))
      (reminder_data st) in
  reminder_rm umo k st
  = (Ok tt,
     mkState data' rj.2 data' (uuid_drawn st) (S (clock_reads st))
       (log st ++ match rj.1 with
                  | Some e => ["Remove job error: " +:+ e]
                  | None => []
                  end)
       (replies st ++ match rj.1 with
                      | Some e => [msg_remove_job_failed e; msg_removed s]
                      | None => [msg_removed s]
                      end)
       (calls st ++ [RemoveJob jid])).
Proof.
  intros Hl Hk Hr Ht jid rj data'.
  assert (l <> []) as Hne.
  { intros Hx. subst l. by rewrite lookup_nil in Hr. }
  destruct (get_upcoming_nonempty _ _ _ Hl Hne) as (Hrun & _ & Hlook).
  unfold reminder_rm, bind. rewrite Hrun.
  destruct l as [|r0 l0]; [done|].
  assert ((k <? 1) || (k >? Z.of_nat (length (r0 :: l0))) = false) as ->.
  { apply orb_false_iff. split; lia. }
  rewrite Hr. unfold get_data, tick. cbn [reminder_data].
  rewrite Hlook. unfold put_data, scheduler_try_remove_job, engine_step.
  cbn [reminder_data scheduler reminder_file uuid_drawn clock_reads log
       replies calls fst snd].
  fold jid. fold rj. fold data'.
  unfold lift, dict_item. rewrite Ht.
  destruct rj.1 as [e|]; unfold logger_error, yield, _save_data, ret;
    cbn [reminder_data scheduler reminder_file uuid_drawn clock_reads log
         replies calls fst snd]; rewrite <- ?app_assoc, ?app_nil_r;
    reflexivity.
Qed.

(** C1: at a valid position [k] over a bucket with pairwise distinct ids,
    the record reported back (the reply carries its text) is the k-th of
    the listing taken before the call; exactly that record leaves the full
    bucket, the others keep their order and the other contexts their
    buckets; no record of the bucket, and none of the listing taken
    afterwards, carries its id. *)
Theorem rm_removes_kth umo k st l r s :
  (get_upcoming_reminders umo st).1 = Ok l ->
  1 <= k <= Z.of_nat (length l) ->
  l !! Z.to_nat (k - 1) = Some r ->
  NoDup (ids (bucket umo (reminder_data st))) ->
  r !! "text" = Some (PStr s) ->
  let out := reminder_rm umo k st in
  out.1 = Ok tt /\
  last (replies out.2) = Some (msg_removed s) /\
  (exists pre post,
     bucket umo (reminder_data st) = pre ++ r :: post /\
     bucket umo (reminder_data out.2) = pre ++ post) /\
  (forall x, x ∈ bucket umo (reminder_data out.2) ->
             dict_get "id" x <> dict_get "id" r) /\
  (forall c, c <> umo ->
             bucket c (reminder_data out.2) = bucket c (reminder_data st)) /\
  last (calls out.2) = Some (RemoveJob (dict_get "id" r)) /\
  reminder_file out.2 = reminder_data out.2 /\
  exists l', (get_upcoming_reminders umo out.2).1 = Ok l' /\
    forall x, x ∈ l' -> dict_get "id" x <> dict_get "id" r.
Proof.
  intros Hl Hk Hr Hnd Ht out. unfold out.
  rewrite (rm_valid_run _ _ _ _ _ _ Hl Hk Hr Ht). cbn [fst snd].
  cbn [reminder_data reminder_file replies calls].
  assert (Hin : r ∈ bucket umo (reminder_data st)).
  { eapply get_upcoming_subset; [exact Hl|]. by eapply list_elem_of_lookup_2. }
  rewrite bucket_set_eq, (pop_matching_unique _ _ Hnd).
  destruct (filter_other_ids _ _ Hnd Hin) as (pre & post & Hb & Hf).
  assert (Hids : forall x,
    x ∈ filter (fun x => dict_get "id" x <> dict_get "id" r)
          (bucket umo (reminder_data st)) ->
    dict_get "id" x <> dict_get "id" r).
  { intros x Hx. by apply list_elem_of_filter in Hx as [Hx _]. }
  split; [done|]. split.
  { destruct (remove_job _ _).1; by rewrite last_snoc || rewrite last_app. }
  split; [by exists pre, post|]. split; [done|].
  split; [by intros c Hc; apply bucket_set_ne|].
  split; [by rewrite last_snoc|]. split; [done|].
  rewrite get_upcoming_run. cbn [reminder_data clock_reads].
  rewrite bucket_set_eq.
  assert (Hl0 : l <> []).
  { intros Hx. subst l. by rewrite lookup_nil in Hr. }
  destruct (get_upcoming_nonempty _ _ _ Hl Hl0) as (_ & Hup & _).
  apply upcoming_parses in Hup.
  set (b' := filter _ (bucket umo (reminder_data st))) in *.
  assert (Hp' : Forall parses b').
  { apply Forall_forall. intros x Hx.
    apply list_elem_of_filter in Hx as [_ Hx].
    by eapply Forall_forall in Hup. }
  destruct b' as [|x0 b0] eqn:Hb'.
  - exists []. split; [done|]. by intros x ?%elem_of_nil.
  - cbn [fst]. rewrite (upcoming_filter _ _ Hp').
    eexists. split; [done|]. intros x Hx.
    apply list_elem_of_filter in Hx as [_ Hx]. by apply Hids.
Qed.

(** C6: when the engine fails to remove the job, the removal still goes
    through: the record leaves the bucket, the file is rewritten with the
    document, and the failure is logged and sent as a warning before the
    confirmation. *)
Theorem rm_survives_remove_job_failure umo k st l r s e :
  (get_upcoming_reminders umo st).1 = Ok l ->
  1 <= k <= Z.of_nat (length l) ->
  l !! Z.to_nat (k - 1) = Some r ->
  NoDup (ids (bucket umo (reminder_data st))) ->
  r !! "text" = Some (PStr s) ->
  (remove_job (dict_get "id" r) (scheduler st)).1 = Some e ->
  let out := reminder_rm umo k st in
  out.1 = Ok tt /\
  (exists pre post,
     bucket umo (reminder_data st) = pre ++ r :: post /\
     bucket umo (reminder_data out.2) = pre ++ post) /\
  reminder_file out.2 = reminder_data out.2 /\
  replies out.2 = replies st ++ [msg_remove_job_failed e; msg_removed s] /\
  log out.2 = log st ++ ["Remove job error: " +:+ e].
Proof.
  intros Hl Hk Hr Hnd Ht He out. unfold out.
  rewrite (rm_valid_run _ _ _ _ _ _ Hl Hk Hr Ht). cbn [fst snd].
  cbn [reminder_data reminder_file replies log]. rewrite He.
  assert (Hin : r ∈ bucket umo (reminder_data st)).
  { eapply get_upcoming_subset; [exact Hl|]. by eapply list_elem_of_lookup_2. }
  rewrite bucket_set_eq, (pop_matching_unique _ _ Hnd).
  destruct (filter_other_ids _ _ Hnd Hin) as (pre & post & Hb & Hf).
  split; [done|]. split; [by exists pre, post|]. done.
Qed.

(** A removal at a valid position keeps the ids of the bucket pairwise
    distinct. *)
Lemma rm_keeps_ids_distinct umo k st l r s :
  (get_upcoming_reminders umo st).1 = Ok l ->
  1 <= k <= Z.of_nat (length l) ->
  l !! Z.to_nat (k - 1) = Some r ->
  NoDup (ids (bucket umo (reminder_data st))) ->
  r !! "text" = Some (PStr s) ->
  NoDup (ids (bucket umo (reminder_data (reminder_rm umo k st).2))).
Proof.
  intros Hl Hk Hr Hnd Ht.
  rewrite (rm_valid_run _ _ _ _ _ _ Hl Hk Hr Ht). cbn [snd reminder_data].
  rewrite bucket_set_eq, (pop_matching_unique _ _ Hnd).
  unfold ids in *. eapply sublist_NoDup; [exact Hnd|].
  apply fmap_sublist, sublist_filter.
Qed.

(** ** [_init_scheduler] *)

Lemma assign_id_run r st :
  assign_id r st
  = match r !! "id" with
    | Some v => (Ok (v, r), st)
    | None =>
        (Ok (PStr (uuid4 (uuid_drawn st)),
             <["id" := PStr (uuid4 (uuid_drawn st))]> r), draw st)
    end.
Proof. unfold assign_id. by destruct (r !! "id"). Qed.

Lemma arm_stored_run g id_ r st :
  arm_stored g id_ r st
  = match r !! "datetime" with
    | Some v =>
        match py_strptime v with
        | Raise e => (Raise e, st)
        | Ok t =>
            if dt_ltb t (clock (clock_reads st)) then (Ok tt, tick st)
            else scheduler_add_job (mkJob id_ (DateTrigger t) (g, r) 60)
                   (tick st)
        end
    | None =>
        match r !! "cron" with
        | Some c =>
            match py_parse_cron c with
            | Raise e => (Raise e, st)
            | Ok f =>
                scheduler_add_job (mkJob id_ (CronTrigger f) (g, r) 60) st
            end
        | None => (Ok tt, st)
        end
    end.
Proof.
  unfold arm_stored, check_is_outdated, bind, lift, now, ret, tick.
  destruct (r !! "datetime") as [v|].
  - destruct (py_strptime v) as [t|e]; [|done].
    by destruct (dt_ltb t (clock (clock_reads st))).
  - destruct (r !! "cron") as [c|]; [|done].
    by destruct (py_parse_cron c).
Qed.

Lemma schedule_of_insert_id r v :
  schedule_of (<["id" := v]> r) = schedule_of r.
Proof.
  unfold schedule_of. by rewrite !lookup_insert_ne.
Qed.

Lemma reconciled_mono lo hi lo' hi' g r r' js :
  (lo' <= lo)%nat -> (hi <= hi')%nat ->
  reconciled lo hi g r r' js -> reconciled lo' hi' g r r' js.
Proof.
  intros Hlo Hhi (Hid & Hsome & Hs). split; [done|]. split; [done|].
  destruct (schedule_of r') as [[v|c]|]; [|done..].
  destruct Hs as (t & n & Ht & Hn & Hjs).
  exists t, n. split; [done|]. split; [lia|done].
Qed.

Lemma group_reconciled_mono lo hi lo' hi' g rs rs' js :
  (lo' <= lo)%nat -> (hi <= hi')%nat ->
  group_reconciled lo hi g rs rs' js -> group_reconciled lo' hi' g rs rs' js.
Proof.
  intros Hlo Hhi. induction 1; constructor; [|done].
  by eapply reconciled_mono.
Qed.

Lemma store_reconciled_mono lo hi lo' hi' d d' js :
  (lo' <= lo)%nat -> (hi <= hi')%nat ->
  store_reconciled lo hi d d' js -> store_reconciled lo' hi' d d' js.
Proof.
  intros Hlo Hhi. induction 1; constructor; [|done].
  by eapply group_reconciled_mono.
Qed.

(** One record: the id, then the arming. *)
Lemma init_record_spec g r st :
  armable r ->
  exists id_ r',
    (assign_id r st).1 = Ok (id_, r') /\
    let b := arm_stored g id_ r' (assign_id r st).2 in
    (clock_reads st <= clock_reads b.2)%nat /\
    match b.1 with
    | Ok _ =>
        exists js,
          reconciled (clock_reads st) (clock_reads b.2) g r r' js /\
          calls b.2 = calls st ++ (AddJob <$> js)
    | Raise e => exists msg, e = EngineError msg
    end.
Proof.
  intros Harm. rewrite assign_id_run.
  set (r' := match r !! "id" with
             | Some _ => r
             | None => <["id" := PStr (uuid4 (uuid_drawn st))]> r
             end).
  set (id_ := dict_get "id" r').
  set (st1 := match r !! "id" with Some _ => st | None => draw st end).
  assert (Hid : id_assigned r r').
  { unfold id_assigned, r'. destruct (r !! "id"); [done|by eexists]. }
  assert (Hsome : r' !! "id" = Some id_).
  { unfold id_, dict_get, r'. destruct (r !! "id") as [v|] eqn:Hv.
    - by rewrite Hv.
    - by rewrite lookup_insert_eq. }
  assert (Hsched : schedule_of r' = schedule_of r).
  { unfold r'. destruct (r !! "id"); [done|]. apply schedule_of_insert_id. }
  assert (Hst1 : clock_reads st1 = clock_reads st /\ calls st1 = calls st).
  { unfold st1. by destruct (r !! "id"). }
  destruct Hst1 as [Hck Hcl].
  exists id_, r'. split.
  { unfold id_, r', dict_get. destruct (r !! "id") as [v|] eqn:Hv; cbn [fst].
    - by rewrite Hv.
    - by rewrite lookup_insert_eq. }
  assert ((match r !! "id" with
           | Some v => (Ok (v, r), st)
           | None =>
               (Ok (PStr (uuid4 (uuid_drawn st)),
                    <["id" := PStr (uuid4 (uuid_drawn st))]> r), draw st)
           end).2 = st1) as ->.
  { unfold st1. by destruct (r !! "id"). }
  cbv zeta. rewrite arm_stored_run.
  unfold armable in Harm. rewrite <- Hsched in Harm.
  assert (Hrec : forall js hi,
    match schedule_of r' with
    | Some (OneShot v) =>
        exists t n, py_strptime v = Ok t /\
          (clock_reads st <= n < hi)%nat /\
          if dt_ltb t (clock n)
          then js = [] /\
               forall later, dt_geb later (clock n) = true ->
                             due later r' = false
          else js = [mkJob (dict_get "id" r') (DateTrigger t) (g, r') 60]
    | Some (Recurring c) =>
        exists f, py_parse_cron c = Ok f /\
          js = [mkJob (dict_get "id" r') (CronTrigger f) (g, r') 60]
    | None => js = []
    end ->
    reconciled (clock_reads st) hi g r r' js).
  { intros js hi Hjs. split; [done|]. split; [by eexists|done]. }
  unfold schedule_of in Harm, Hrec.
  destruct (r' !! "datetime") as [v|] eqn:Hdt.
  - destruct Harm as [t Ht]. rewrite Ht.
    destruct (dt_ltb t (clock (clock_reads st1))) eqn:Hlt.
    + cbn [fst snd tick clock_reads calls]. rewrite Hck. split; [lia|].
      exists []. split; [|by rewrite app_nil_r].
      apply Hrec. exists t, (clock_reads st).
      split; [done|]. split; [lia|]. rewrite Hck in Hlt. rewrite Hlt.
      split; [done|]. intros later Hl. unfold due.
      rewrite Hdt, Ht. by eapply dt_ltb_later.
    + unfold scheduler_add_job, engine_step, tick.
      cbn [fst snd clock_reads calls scheduler]. rewrite Hck. split; [lia|].
      match goal with
      | |- context [(add_job ?j ?e).1] => destruct (add_job j e).1
      end.
      { by eexists. }
      eexists [_]. split; [|by rewrite Hcl].
      apply Hrec. exists t, (clock_reads st).
      split; [done|]. split; [lia|]. rewrite Hck in Hlt. by rewrite Hlt.
  - destruct (r' !! "cron") as [c|] eqn:Hcr.
    + destruct Harm as [f Hf]. rewrite Hf.
      unfold scheduler_add_job, engine_step.
      cbn [fst snd clock_reads calls scheduler]. rewrite Hck. split; [lia|].
      match goal with
      | |- context [(add_job ?j ?e).1] => destruct (add_job j e).1
      end.
      { by eexists. }
      eexists [_]. split; [|by rewrite Hcl].
      apply Hrec. by exists f.
    + cbn [fst snd]. rewrite Hck. split; [lia|].
      exists []. split; [|by rewrite Hcl, app_nil_r].
      by apply Hrec.
Qed.

Lemma init_group_spec g rs st :
  Forall armable rs ->
  exists rs' oe st',
    init_group g rs st = (Ok (rs', oe), st') /\
    (clock_reads st <= clock_reads st')%nat /\
    match oe with
    | None =>
        exists js,
          group_reconciled (clock_reads st) (clock_reads st') g rs rs' js /\
          calls st' = calls st ++ (AddJob <$> js)
    | Some e => exists msg, e = EngineError msg
    end.
Proof.
  intros Hrs. revert st. induction Hrs as [|r rs Hr Hrs IH]; intros st.
  - exists [], None, st. split; [done|]. split; [lia|].
    exists []. split; [constructor|by rewrite app_nil_r].
  - destruct (init_record_spec g r st Hr) as (id_ & r' & Ha & Hb).
    cbn [init_group]. unfold bind at 1.
    destruct (assign_id r st) as [res st1]. cbn [fst snd] in Ha, Hb.
    subst res. cbn [fst snd]. unfold bind at 1, try_ at 1.
    cbv zeta in Hb. destruct Hb as [Hck Hb].
    destruct (arm_stored g id_ r' st1) as [armed st2]. cbn [fst snd] in *.
    destruct armed as [[]|e].
    + destruct Hb as (js & Hrec & Hcalls).
      destruct (IH st2) as (rs' & oe & st3 & Hout & Hck2 & Hoe).
      unfold bind. rewrite Hout. unfold ret. cbn [fst snd].
      exists (r' :: rs'), oe, st3. split; [done|]. split; [lia|].
      destruct oe as [e|]; [done|].
      destruct Hoe as (jss & Hgrp & Hcalls3).
      exists (js ++ jss). split.
      * constructor.
        -- eapply reconciled_mono; [| |exact Hrec]; lia.
        -- eapply group_reconciled_mono; [| |exact Hgrp]; lia.
      * by rewrite Hcalls3, Hcalls, fmap_app, app_assoc.
    + unfold ret. by exists (r' :: rs), (Some e), st2.
Qed.

Lemma init_groups_spec d st :
  Forall (fun entry => Forall armable entry.2) d ->
  exists d' oe st',
    init_groups d st = (Ok (d', oe), st') /\
    (clock_reads st <= clock_reads st')%nat /\
    match oe with
    | None =>
        exists js,
          store_reconciled (clock_reads st) (clock_reads st') d d' js /\
          calls st' = calls st ++ (AddJob <$> js)
    | Some e => exists msg, e = EngineError msg
    end.
Proof.
  intros Hd. revert st. induction Hd as [|[g rs] d Hg Hd IH]; intros st.
  - exists [], None, st. split; [done|]. split; [lia|].
    exists []. split; [constructor|by rewrite app_nil_r].
  - destruct (init_group_spec g rs st Hg)
      as (rs' & oe & st1 & Hout & Hck & Hoe).
    cbn [init_groups]. unfold bind at 1. rewrite Hout. cbn [fst snd].
    destruct oe as [e|].
    + unfold ret. by exists ((g, rs') :: d), (Some e), st1.
    + destruct Hoe as (js & Hgrp & Hcalls).
      destruct (IH st1) as (d' & oe & st2 & Hout2 & Hck2 & Hoe).
      unfold bind. rewrite Hout2. unfold ret. cbn [fst snd].
      exists ((g, rs') :: d'), oe, st2. split; [done|]. split; [lia|].
      destruct oe as [e|]; [done|].
      destruct Hoe as (jss & Hst & Hcalls2).
      exists (js ++ jss). split.
      * constructor.
        -- eapply group_reconciled_mono; [| |exact Hgrp]; lia.
        -- eapply store_reconciled_mono; [| |exact Hst]; lia.
      * by rewrite Hcalls2, Hcalls, fmap_app, app_assoc.
Qed.

(** C7: when every stored record can be armed and the engine refuses no
    job, startup completes and has treated the records in order: a record
    without an id has received one; a one-shot record whose instant is
    before the clock reading taken for it has no job, is still in the
    document, and is outside every later listing; every other one-shot
    record has a date job at its instant and every recurring record a cron
    job on its five fields, each under the id of the record. *)
Theorem init_scheduler_reconciles st :
  Forall (fun entry => Forall armable entry.2) (reminder_data st) ->
  (forall msg, (_init_scheduler st).1 <> Raise (EngineError msg)) ->
  let out := _init_scheduler st in
  out.1 = Ok tt /\
  exists js,
    store_reconciled (clock_reads st) (clock_reads out.2)
      (reminder_data st) (reminder_data out.2) js /\
    calls out.2 = calls st ++ (AddJob <$> js).
Proof.
  intros Hd Hacc. cbv zeta. revert Hacc.
  unfold _init_scheduler, bind, get_data.
  destruct (init_groups_spec (reminder_data st) st Hd)
    as (d' & oe & st1 & Hout & _ & Hoe).
  rewrite Hout. unfold put_data. cbn [fst snd].
  destruct oe as [e|].
  - destruct Hoe as [msg ->]. unfold raise. cbn [fst]. intros Hacc.
    by destruct (Hacc msg).
  - intros _. unfold ret. cbn [fst snd reminder_data clock_reads calls].
    done.
Qed.

End Facts.

(** * Further properties *)

(** ** The removal loop, whatever the ids *)

Lemma pop_matching_bounds (n : nat) (jid : pyval) (rs : list reminder) :
  (length rs <= n)%nat ->
  filter (fun r => dict_get "id" r <> jid) rs `sublist_of` pop_matching jid rs
  /\ pop_matching jid rs `sublist_of` rs.
Proof.
  revert rs. induction n as [|n IH]; intros rs Hn.
  { destruct rs; simpl in Hn; [|lia]. split; constructor. }
  destruct rs as [|r rs]; [split; constructor|]. simpl in Hn.
  rewrite filter_cons. simpl.
  destruct (decide (dict_get "id" r = jid)) as [Heq|Hne].
  - rewrite decide_False by (by intros Hx; apply Hx).
    destruct rs as [|r2 rs]; [split; repeat constructor|].
    destruct (IH rs) as [Hlo Hhi]; [simpl in Hn; lia|].
    split.
    + rewrite filter_cons. case_decide.
      * by apply sublist_skip.
      * by apply sublist_cons.
    + by apply sublist_cons, sublist_skip.
  - rewrite decide_True by done.
    destruct (IH rs) as [Hlo Hhi]; [lia|].
    split; by apply sublist_skip.
Qed.

(** X1: the loop only ever drops records that carry the id, and keeps the
    others in their order: its result lies between the bucket without the
    records of that id and the bucket itself. *)
Theorem pop_matching_between (jid : pyval) (rs : list reminder) :
  filter (fun r => dict_get "id" r <> jid) rs `sublist_of` pop_matching jid rs
  /\ pop_matching jid rs `sublist_of` rs.
Proof. by apply (pop_matching_bounds (length rs)). Qed.

Lemma pop_matching_length_le (jid : pyval) (rs : list reminder) :
  (length (pop_matching jid rs) <= length rs)%nat.
Proof.
  apply sublist_length. by apply (pop_matching_bounds (length rs)).
Qed.

(** X2: the loop removes at least one record exactly when some record of
    the bucket carries the id. *)
Theorem pop_matching_shrinks_iff (jid : pyval) (rs : list reminder) :
  (length (pop_matching jid rs) < length rs)%nat <-> jid ∈ ids rs.
Proof.
  split.
  - intros Hlt. destruct (decide (jid ∈ ids rs)) as [|Hn]; [done|].
    rewrite (pop_matching_no_match _ _ (not_in_ids _ _ Hn)) in Hlt. lia.
  - induction rs as [|r rs IH]; [by intros ?%elem_of_nil|].
    unfold ids. rewrite fmap_cons. simpl.
    destruct (decide (dict_get "id" r = jid)) as [Heq|Hne].
    + intros _. destruct rs as [|r2 rs]; simpl; [lia|].
      pose proof (pop_matching_length_le jid rs). lia.
    + intros [Hx|Hx]%elem_of_cons; [done|].
      simpl. apply IH in Hx. lia.
Qed.

(** ** Splitting what was joined *)

Lemma split_space_no_space (w : string) :
  has_space w = false -> split_space w = [w].
Proof.
  induction w as [|c w IH]; [done|]. simpl.
  intros [Hc Hw]%orb_false_iff. apply bool_decide_eq_false in Hc.
  destruct (decide (c = " "%char)); [done|]. by rewrite IH.
Qed.

Lemma split_space_app (w s : string) :
  has_space w = false ->
  split_space (w +:+ " " +:+ s) = w :: split_space s.
Proof.
  induction w as [|c w IH]; simpl.
  - intros _. by destruct (decide (" "%char = " "%char)).
  - intros [Hc Hw]%orb_false_iff. apply bool_decide_eq_false in Hc.
    destruct (decide (c = " "%char)); [done|]. by rewrite IH.
Qed.

(** X3: splitting is the inverse of joining: a non-empty list of fields
    without spaces, joined by single spaces, splits back into itself. *)
Theorem split_join_space (ws : list string) :
  ws <> [] -> Forall (fun w => has_space w = false) ws ->
  split_space (join_space ws) = ws.
Proof.
  intros Hne Hws. induction Hws as [|w ws Hw Hws IH]; [done|].
  destruct ws as [|w2 ws].
  - by apply split_space_no_space.
  - unfold join_space in *. cbn [String.concat].
    rewrite split_space_app by done. f_equal. by apply IH.
Qed.

Section More.
Context `{H : Host}.

(** ** The two tests of the instant *)

(** X4: startup's test for an overdue record and the listing's test are
    complementary at one clock reading: [check_is_outdated] answers the
    negation of the comprehension's condition, and raises when it raises. *)
Theorem check_is_outdated_is_upcoming (r : reminder) (st : state) :
  (check_is_outdated r st).1
  = rbind (is_upcoming (clock (clock_reads st)) r) (fun b => Ok (negb b)).
Proof.
  unfold check_is_outdated, is_upcoming, bind, lift, now, ret.
  destruct (r !! "datetime") as [v|]; [|done].
  destruct (py_strptime v) as [t|e]; [|done].
  cbn. unfold dt_geb. by rewrite negb_involutive.
Qed.

(** ** [_add_single_reminder]: what it leaves alone *)

Lemma bucket_ensure_other c umo st :
  c <> umo ->
  bucket c (reminder_data (ensure_bucket umo st)) = bucket c (reminder_data st).
Proof.
  intros Hc. unfold ensure_bucket.
  destruct (store_lookup umo (reminder_data st)); [done|].
  cbn [reminder_data]. by apply bucket_set_ne.
Qed.

Lemma bucket_appended_other c umo d st :
  c <> umo ->
  bucket c (reminder_data (appended umo d st)) = bucket c (reminder_data st).
Proof.
  intros Hc. unfold appended. cbn [reminder_data].
  rewrite bucket_set_ne by done. by apply bucket_ensure_other.
Qed.

(** X5: an add never rewrites the file, reads the clock, logs or replies,
    and never touches the bucket of another context; it draws exactly one
    identifier, except when no schedule is given, where it draws none. *)
Theorem add_frame umo text dts cron h st :
  let out := _add_single_reminder umo text dts cron h st in
  reminder_file out.2 = reminder_file st /\
  clock_reads out.2 = clock_reads st /\
  log out.2 = log st /\ replies out.2 = replies st /\
  (forall c, c <> umo ->
             bucket c (reminder_data out.2) = bucket c (reminder_data st)) /\
  uuid_drawn out.2
  = match out.1 with
    | Raise ValueError_no_schedule => uuid_drawn st
    | _ => S (uuid_drawn st)
    end.
Proof.
  cbv zeta.
  destruct (nonempty cron) as [c|] eqn:Hc.
  - rewrite (add_cron_run _ _ _ _ _ _ c Hc).
    destruct (_parse_cron_expr c) as [f|e] eqn:Hp; cbv zeta; cbn [fst snd].
    + unfold engine_step.
      cbn [reminder_data reminder_file clock_reads log replies uuid_drawn].
      repeat (split; [done|]).
      split; [by intros c0 Hc0; apply bucket_appended_other|].
      by match goal with
         | |- context [(add_job ?j ?e).1] => destruct (add_job j e).1
         end.
    + apply parse_cron_expr_raise in Hp as ->.
      repeat (split; [done|]).
      split; [by intros c0 Hc0; apply bucket_appended_other|done].
  - destruct (nonempty dts) as [s|] eqn:Hd.
    + rewrite (add_date_run _ _ _ _ _ _ s Hc Hd).
      destruct (py_strptime (PStr s)) as [t0|e] eqn:Hp; cbv zeta;
        cbn [fst snd].
      * unfold engine_step.
        cbn [reminder_data reminder_file clock_reads log replies uuid_drawn].
        repeat (split; [done|]).
        split; [by intros c0 Hc0; apply bucket_appended_other|].
        by match goal with
           | |- context [(add_job ?j ?e).1] => destruct (add_job j e).1
           end.
      * apply py_strptime_str_raise in Hp as ->.
        repeat (split; [done|]).
        split; [by intros c0 Hc0; apply bucket_appended_other|done].
    + rewrite (add_none_run _ _ _ _ _ _ Hc Hd). cbn [fst snd].
      unfold ensure_bucket at 1 2 3 4 6.
      destruct (store_lookup umo (reminder_data st)); cbn;
        (repeat (split; [done|]));
        (split; [by intros c0 Hc0; apply bucket_ensure_other|done]).
Qed.

Lemma add_appends umo text dts cron h st :
  (nonempty cron <> None \/ nonempty dts <> None) ->
  bucket umo (reminder_data (_add_single_reminder umo text dts cron h st).2)
  = bucket umo (reminder_data st)
    ++ [new_record text dts cron h (uuid4 (uuid_drawn st))].
Proof.
  intros Hgiven. unfold new_record.
  destruct (nonempty cron) as [c|] eqn:Hc.
  - rewrite (add_cron_run _ _ _ _ _ _ c Hc).
    destruct (_parse_cron_expr c); cbv zeta; cbn [snd];
      unfold engine_step; cbn [reminder_data]; apply bucket_appended.
  - destruct (nonempty dts) as [s|] eqn:Hd; [|by destruct Hgiven].
    rewrite (add_date_run _ _ _ _ _ _ s Hc Hd).
    destruct (py_strptime (PStr s)); cbv zeta; cbn [snd];
      unfold engine_step; cbn [reminder_data]; apply bucket_appended.
Qed.

Lemma text_of_nonempty text : text_of text <> "".
Proof.
  unfold text_of. destruct (nonempty text) as [s|] eqn:Hs; simpl.
  - by apply nonempty_Some in Hs as [_ Hs].
  - done.
Qed.

(** X6: whenever a schedule is given, the record appended has a non-empty
    text, the identifier drawn as its id, and exactly one schedule: the
    cron expression with its label and no datetime when a cron expression
    is given, the datetime and no cron key otherwise. *)
Theorem add_record_shape umo text dts cron h st :
  (nonempty cron <> None \/ nonempty dts <> None) ->
  exists d,
    bucket umo (reminder_data (_add_single_reminder umo text dts cron h st).2)
    = bucket umo (reminder_data st) ++ [d] /\
    (exists t, t <> "" /\ d !! "text" = Some (PStr t)) /\
    d !! "id" = Some (PStr (uuid4 (uuid_drawn st))) /\
    match nonempty cron with
    | Some c =>
        d !! "cron" = Some (PStr c) /\ d !! "cron_h" = Some h /\
        d !! "datetime" = None
    | None =>
        d !! "datetime" = Some dts /\ nonempty dts <> None /\
        d !! "cron" = None /\ d !! "cron_h" = None
    end.
Proof.
  intros Hgiven. eexists. split; [by apply add_appends|].
  unfold new_record.
  destruct (nonempty cron) as [c|] eqn:Hc.
  - unfold cron_record. split.
    { exists (text_of text). split; [apply text_of_nonempty|].
      by rewrite 3!lookup_insert_ne, lookup_singleton_eq by done. }
    split; [by rewrite 2!lookup_insert_ne, lookup_insert_eq by done|].
    split; [by rewrite lookup_insert_ne, lookup_insert_eq by done|].
    split; [by rewrite lookup_insert_eq|].
    by rewrite 3!lookup_insert_ne, lookup_singleton_ne by done.
  - destruct (nonempty dts) as [s|] eqn:Hd; [|by destruct Hgiven].
    apply nonempty_Some in Hd as [-> Hs]. unfold date_record.
    cbn [default from_option id]. split.
    { exists (text_of text). split; [apply text_of_nonempty|].
      by rewrite 2!lookup_insert_ne, lookup_singleton_eq by done. }
    split; [by rewrite lookup_insert_ne, lookup_insert_eq by done|].
    split; [by rewrite lookup_insert_eq|].
    split; [done|].
    split; by rewrite 2!lookup_insert_ne, lookup_singleton_ne by done.
Qed.

(** ** Listing after an add *)

Lemma add_clock_reads umo text dts cron h st :
  clock_reads (_add_single_reminder umo text dts cron h st).2 = clock_reads st.
Proof.
  destruct (nonempty cron) as [c|] eqn:Hc.
  - rewrite (add_cron_run _ _ _ _ _ _ c Hc).
    by destruct (_parse_cron_expr c).
  - destruct (nonempty dts) as [s|] eqn:Hd.
    + rewrite (add_date_run _ _ _ _ _ _ s Hc Hd).
      by destruct (py_strptime (PStr s)).
    + rewrite (add_none_run _ _ _ _ _ _ Hc Hd). cbn [snd].
      unfold ensure_bucket. by destruct (store_lookup umo (reminder_data st)).
Qed.

Lemma get_upcoming_snoc umo st b d :
  bucket umo (reminder_data st) = b ++ [d] ->
  Forall parses b -> parses d ->
  (get_upcoming_reminders umo st).1
  = Ok (filter (fun r => due (clock (clock_reads st)) r) b
        ++ if due (clock (clock_reads st)) d then [d] else []).
Proof.
  intros Hb Hpb Hpd. rewrite get_upcoming_run, Hb.
  destruct (b ++ [d]) as [|r rs] eqn:Hbd.
  { by destruct b. }
  cbn [fst]. rewrite <- Hbd.
  rewrite upcoming_filter by (apply Forall_app; split; [done|by constructor]).
  rewrite filter_app, filter_cons, filter_nil.
  by destruct (due (clock (clock_reads st)) d).
Qed.

Lemma cron_record_lookups text id c h :
  cron_record text id c h !! "datetime" = None /\
  cron_record text id c h !! "text" = Some (PStr (text_of text)) /\
  dict_get "id" (cron_record text id c h) = PStr id.
Proof.
  unfold dict_get, cron_record. split; [|split].
  - by rewrite 3!lookup_insert_ne, lookup_singleton_ne by done.
  - by rewrite 3!lookup_insert_ne, lookup_singleton_eq by done.
  - by rewrite 2!lookup_insert_ne, lookup_insert_eq by done.
Qed.

Lemma date_record_lookups text id s :
  date_record text id s !! "datetime" = Some (PStr s) /\
  date_record text id s !! "text" = Some (PStr (text_of text)) /\
  dict_get "id" (date_record text id s) = PStr id.
Proof.
  unfold dict_get, date_record. split; [|split].
  - by rewrite lookup_insert_eq.
  - by rewrite 2!lookup_insert_ne, lookup_singleton_eq by done.
  - by rewrite lookup_insert_ne, lookup_insert_eq by done.
Qed.

Lemma due_date_record n text id s t :
  strptime s = Some t -> due n (date_record text id s) = dt_geb t n.
Proof.
  intros Ht. unfold due.
  destruct (date_record_lookups text id s) as (-> & _). simpl. by rewrite Ht.
Qed.

Lemma due_cron_record n text id c h : due n (cron_record text id c h) = true.
Proof.
  unfold due. by destruct (cron_record_lookups text id c h) as (-> & _).
Qed.

(** X7: after an add with a datetime that parses, the next listing is the
    former listing followed by the new record when its instant is not
    before the clock reading, and the former listing alone when it is;
    this holds whether or not the engine accepted the job. *)
Theorem add_one_shot_then_listing umo text dts cron h st s t :
  nonempty cron = None -> nonempty dts = Some s -> strptime s = Some t ->
  Forall parses (bucket umo (reminder_data st)) ->
  let out := _add_single_reminder umo text dts cron h st in
  let n := clock (clock_reads st) in
  (get_upcoming_reminders umo out.2).1
  = Ok (filter (fun r => due n r) (bucket umo (reminder_data st))
        ++ if dt_geb t n
           then [date_record text (uuid4 (uuid_drawn st)) s] else []).
Proof.
  intros Hc Hd Ht Hp. cbv zeta.
  assert (Hgiven : nonempty cron <> None \/ nonempty dts <> None).
  { right. by rewrite Hd. }
  pose proof (add_appends umo text dts cron h st Hgiven) as Hb.
  unfold new_record in Hb. rewrite Hc, Hd in Hb.
  cbn [default from_option id] in Hb.
  destruct (date_record_lookups text (uuid4 (uuid_drawn st)) s) as (Hdt & _).
  rewrite (get_upcoming_snoc _ _ _ _ Hb Hp).
  - by rewrite add_clock_reads, (due_date_record _ _ _ _ _ Ht).
  - unfold parses. rewrite Hdt. simpl. rewrite Ht. by eexists.
Qed.

(** X8: after an add with a cron expression the new record is the last of
    the next listing, even when the add raised because the expression has
    too few fields or the engine refused the job. *)
Theorem add_recurring_then_listing umo text dts cron h st c :
  nonempty cron = Some c ->
  Forall parses (bucket umo (reminder_data st)) ->
  let out := _add_single_reminder umo text dts cron h st in
  (get_upcoming_reminders umo out.2).1
  = Ok (filter (fun r => due (clock (clock_reads st)) r)
          (bucket umo (reminder_data st))
        ++ [cron_record text (uuid4 (uuid_drawn st)) c h]).
Proof.
  intros Hc Hp. cbv zeta.
  assert (Hgiven : nonempty cron <> None \/ nonempty dts <> None).
  { left. by rewrite Hc. }
  pose proof (add_appends umo text dts cron h st Hgiven) as Hb.
  unfold new_record in Hb. rewrite Hc in Hb.
  destruct (cron_record_lookups text (uuid4 (uuid_drawn st)) c h) as (Hdt & _).
  rewrite (get_upcoming_snoc _ _ _ _ Hb Hp).
  - by rewrite add_clock_reads, due_cron_record.
  - unfold parses. by rewrite Hdt.
Qed.

(** X9: an add with a cron expression is undone by a removal at the last
    position of the listing: the bucket is again what it was before the
    add, the reply names the text, and the engine is asked to remove the
    job of the identifier drawn.  The ids of the bucket are pairwise
    distinct and the identifier drawn is new to it. *)
Theorem add_recurring_then_rm umo text dts cron h st c :
  nonempty cron = Some c ->
  Forall parses (bucket umo (reminder_data st)) ->
  NoDup (ids (bucket umo (reminder_data st))) ->
  PStr (uuid4 (uuid_drawn st)) ∉ ids (bucket umo (reminder_data st)) ->
  let st1 := (_add_single_reminder umo text dts cron h st).2 in
  let k := S (length (filter (fun r => due (clock (clock_reads st)) r)
                        (bucket umo (reminder_data st)))) in
  let out := reminder_rm umo (Z.of_nat k) st1 in
  out.1 = Ok tt /\
  bucket umo (reminder_data out.2) = bucket umo (reminder_data st) /\
  last (replies out.2) = Some (msg_removed (text_of text)) /\
  last (calls out.2) = Some (RemoveJob (PStr (uuid4 (uuid_drawn st)))).
Proof.
  intros Hc Hp Hnd Hfresh. cbv zeta.
  set (b := bucket umo (reminder_data st)) in *.
  set (d := cron_record text (uuid4 (uuid_drawn st)) c h).
  set (l := filter (fun r => due (clock (clock_reads st)) r) b).
  assert (Hgiven : nonempty cron <> None \/ nonempty dts <> None).
  { left. by rewrite Hc. }
  pose proof (add_appends umo text dts cron h st Hgiven) as Hb.
  unfold new_record in Hb. rewrite Hc in Hb. fold b d in Hb.
  destruct (cron_record_lookups text (uuid4 (uuid_drawn st)) c h)
    as (Hdt & Htext & Hid). fold d in Hdt, Htext, Hid.
  assert (Hl : (get_upcoming_reminders umo
                  (_add_single_reminder umo text dts cron h st).2).1
               = Ok (l ++ [d])).
  { rewrite (get_upcoming_snoc _ _ _ _ Hb Hp).
    - rewrite add_clock_reads.
      by replace (due (clock (clock_reads st)) d) with true
        by (symmetry; apply due_cron_record).
    - unfold parses. by rewrite Hdt. }
  assert (Hk : 1 <= Z.of_nat (S (length l)) <= Z.of_nat (length (l ++ [d]))).
  { rewrite length_app. simpl. lia. }
  assert (Hr : (l ++ [d]) !! Z.to_nat (Z.of_nat (S (length l)) - 1) = Some d).
  { replace (Z.to_nat (Z.of_nat (S (length l)) - 1)) with (length l) by lia.
    by rewrite lookup_app_r, Nat.sub_diag by lia. }
  rewrite (rm_valid_run _ _ _ _ _ _ Hl Hk Hr Htext). cbn [fst snd].
  cbn [reminder_data replies calls].
  split; [done|]. split.
  - rewrite bucket_set_eq, Hb, Hid.
    assert (Hnd' : NoDup (ids (b ++ [d]))).
    { unfold ids. rewrite fmap_app. apply NoDup_app.
      split; [done|]. split; [|apply NoDup_singleton].
      intros x Hx. cbn. rewrite Hid. intros ->%list_elem_of_singleton. done. }
    rewrite (pop_matching_unique _ _ Hnd'), filter_app, filter_cons, filter_nil.
    rewrite decide_False by (rewrite Hid; by intros Hx; apply Hx).
    rewrite app_nil_r. apply filter_all. by apply not_in_ids.
  - rewrite Hid. split; [|by rewrite last_snoc].
    destruct (remove_job _ _).1; by rewrite last_snoc || rewrite last_app.
Qed.

(** X10: the listing returns exactly when every datetime stored in the
    bucket parses: one record with a datetime that [strptime] rejects makes
    every listing of the context raise. *)
Theorem get_upcoming_returns_iff umo st :
  (exists l, (get_upcoming_reminders umo st).1 = Ok l)
  <-> Forall parses (bucket umo (reminder_data st)).
Proof.
  rewrite get_upcoming_run.
  destruct (bucket umo (reminder_data st)) as [|r rs] eqn:Hb; cbn [fst].
  - split; [by constructor|by eexists].
  - split.
    + intros [l Hl]. by eapply upcoming_parses.
    + intros Hp. eexists. by apply upcoming_filter.
Qed.

(** ** Startup, whatever the records *)

Lemma id_kept_refl r : id_kept r r.
Proof. unfold id_kept. destruct (r !! "id"); [done|by left]. Qed.

Lemma arm_stored_frame g id_ r st :
  let b := arm_stored g id_ r st in
  reminder_file b.2 = reminder_file st /\ log b.2 = log st /\
  replies b.2 = replies st /\ uuid_drawn b.2 = uuid_drawn st /\
  (~ parses r -> exists e, b.1 = Raise e).
Proof.
  cbv zeta. rewrite arm_stored_run. unfold parses.
  destruct (r !! "datetime") as [v|].
  - destruct (py_strptime v) as [t|e].
    + destruct (dt_ltb t (clock (clock_reads st))); cbn;
        (repeat (split; [done|])); intros Hn; destruct Hn; by eexists.
    + cbn. repeat (split; [done|]). intros _. by eexists.
  - destruct (r !! "cron") as [c|].
    + destruct (py_parse_cron c) as [f|e]; cbn;
        (repeat (split; [done|])); by intros Hn; destruct Hn.
    + cbn. repeat (split; [done|]). by intros Hn; destruct Hn.
Qed.

Lemma parses_insert_id r v : parses (<["id" := v]> r) <-> parses r.
Proof. unfold parses. by rewrite lookup_insert_ne. Qed.

Lemma init_group_any g rs st :
  exists rs' oe st',
    init_group g rs st = (Ok (rs', oe), st') /\
    Forall2 id_kept rs rs' /\
    reminder_file st' = reminder_file st /\ log st' = log st /\
    replies st' = replies st /\
    (Forall (fun r => is_Some (r !! "id")) rs ->
     rs' = rs /\ uuid_drawn st' = uuid_drawn st) /\
    (Exists (fun r => ~ parses r) rs -> oe <> None).
Proof.
  revert st. induction rs as [|r rs IH]; intros st.
  { exists [], None, st. split; [done|]. split; [constructor|].
    repeat (split; [done|]). by intros ?%Exists_nil. }
  cbn [init_group]. unfold bind at 1. rewrite assign_id_run.
  set (r' := match r !! "id" with
             | Some _ => r
             | None => <["id" := PStr (uuid4 (uuid_drawn st))]> r
             end).
  set (id_ := match r !! "id" with
              | Some v => v
              | None => PStr (uuid4 (uuid_drawn st))
              end).
  set (st1 := match r !! "id" with Some _ => st | None => draw st end).
  assert (match r !! "id" with
          | Some v => (Ok (v, r), st)
          | None =>
              (Ok (PStr (uuid4 (uuid_drawn st)),
                   <["id" := PStr (uuid4 (uuid_drawn st))]> r), draw st)
          end = (Ok (id_, r'), st1)) as ->.
  { unfold id_, r', st1. by destruct (r !! "id"). }
  assert (Hkept : id_kept r r').
  { unfold id_kept, r'. destruct (r !! "id"); [done|]. right. by eexists. }
  assert (Hst1 : reminder_file st1 = reminder_file st /\ log st1 = log st /\
                 replies st1 = replies st).
  { unfold st1. by destruct (r !! "id"). }
  assert (Hhas : is_Some (r !! "id") -> r' = r /\ uuid_drawn st1 = uuid_drawn st).
  { unfold r', st1. intros [v Hv]. by rewrite Hv. }
  assert (Hpar : parses r' <-> parses r).
  { unfold r'. destruct (r !! "id"); [done|]. apply parses_insert_id. }
  destruct Hst1 as (Hf1 & Hl1 & Hr1).
  cbn [fst snd]. unfold bind at 1, try_ at 1.
  pose proof (arm_stored_frame g id_ r' st1) as Harm. cbv zeta in Harm.
  destruct (arm_stored g id_ r' st1) as [armed st2]. cbn [fst snd] in *.
  destruct Harm as (Hf2 & Hl2 & Hr2 & Hu2 & Hbad).
  destruct armed as [[]|e].
  - destruct (IH st2) as (rs' & oe & st3 & Hrun & Hall & Hf3 & Hl3 & Hr3
                          & Hids & Hex).
    unfold bind. rewrite Hrun. unfold ret. cbn [fst snd].
    exists (r' :: rs'), oe, st3. split; [done|].
    split; [by constructor|].
    split; [congruence|]. split; [congruence|]. split; [congruence|].
    split.
    + intros [Hr Hrs]%Forall_cons. destruct (Hhas Hr) as [-> Hu1].
      destruct (Hids Hrs) as [-> Hu3]. split; [done|congruence].
    + intros [Hr|Hrs]%Exists_cons; [|by apply Hex].
      destruct Hbad as [e He]; [by rewrite Hpar|done].
  - unfold ret. exists (r' :: rs), (Some e), st2. split; [done|].
    split.
    { constructor; [done|]. apply Forall_Forall2_diag, Forall_forall.
      intros x _. apply id_kept_refl. }
    split; [congruence|]. split; [congruence|]. split; [congruence|].
    split; [|done].
    intros [Hr Hrs]%Forall_cons. destruct (Hhas Hr) as [-> Hu1].
    split; [done|congruence].
Qed.

Lemma same_shape_refl d : same_shape d d.
Proof.
  apply Forall_Forall2_diag, Forall_forall. intros e _. split; [done|].
  apply Forall_Forall2_diag, Forall_forall. intros x _. apply id_kept_refl.
Qed.

Lemma init_groups_any d st :
  exists d' oe st',
    init_groups d st = (Ok (d', oe), st') /\
    same_shape d d' /\
    reminder_file st' = reminder_file st /\ log st' = log st /\
    replies st' = replies st /\
    (Forall (fun e => Forall (fun r => is_Some (r !! "id")) e.2) d ->
     d' = d /\ uuid_drawn st' = uuid_drawn st) /\
    (Exists (fun e => Exists (fun r => ~ parses r) e.2) d -> oe <> None).
Proof.
  revert st. induction d as [|[g rs] d IH]; intros st.
  { exists [], None, st. split; [done|]. split; [constructor|].
    repeat (split; [done|]). by intros ?%Exists_nil. }
  destruct (init_group_any g rs st)
    as (rs' & oe & st1 & Hrun & Hall & Hf1 & Hl1 & Hr1 & Hids & Hex).
  cbn [init_groups]. unfold bind at 1. rewrite Hrun. cbn [fst snd].
  destruct oe as [e|].
  - unfold ret. exists ((g, rs') :: d), (Some e), st1. split; [done|].
    split; [constructor; [done|apply same_shape_refl]|].
    repeat (split; [done|]). split; [|done].
    intros [Hr _]%Forall_cons. destruct (Hids Hr) as [-> Hu]. done.
  - destruct (IH st1) as (d' & oe & st2 & Hrun2 & Hall2 & Hf2 & Hl2 & Hr2
                          & Hids2 & Hex2).
    unfold bind. rewrite Hrun2. unfold ret. cbn [fst snd].
    exists ((g, rs') :: d'), oe, st2. split; [done|].
    split; [by constructor|].
    split; [congruence|]. split; [congruence|]. split; [congruence|].
    split.
    + intros [Hr Hd]%Forall_cons. destruct (Hids Hr) as [-> Hu1].
      destruct (Hids2 Hd) as [-> Hu2]. split; [done|congruence].
    + intros [Hr|Hd]%Exists_cons; [by destruct (Hex Hr)|by apply Hex2].
Qed.

(** X11: whether it returns or raises, startup never rewrites the file,
    never replies or logs an error, and keeps every context and every
    record in place: the only change to the document is an id inserted
    into a record that had none. *)
Theorem init_scheduler_keeps_shape st :
  let out := _init_scheduler st in
  reminder_file out.2 = reminder_file st /\
  replies out.2 = replies st /\ log out.2 = log st /\
  same_shape (reminder_data st) (reminder_data out.2).
Proof.
  cbv zeta. unfold _init_scheduler, bind, get_data.
  destruct (init_groups_any (reminder_data st) st)
    as (d' & oe & st1 & Hrun & Hall & Hf & Hl & Hr & _).
  rewrite Hrun. unfold put_data. cbn [fst snd].
  by destruct oe.
Qed.

(** X12: when every stored record already has an id, startup leaves the
    document as it is and draws no identifier. *)
Theorem init_scheduler_with_ids st :
  Forall (fun e => Forall (fun r => is_Some (r !! "id")) e.2)
    (reminder_data st) ->
  let out := _init_scheduler st in
  reminder_data out.2 = reminder_data st /\ uuid_drawn out.2 = uuid_drawn st.
Proof.
  intros Hids. cbv zeta. unfold _init_scheduler, bind, get_data.
  destruct (init_groups_any (reminder_data st) st)
    as (d' & oe & st1 & Hrun & _ & _ & _ & _ & Hsame & _).
  rewrite Hrun. unfold put_data. cbn [fst snd].
  destruct (Hsame Hids) as [-> Hu]. by destruct oe.
Qed.

(** X13: one stored datetime that [strptime] rejects makes startup raise:
    the instance does not come up while the record is in the document. *)
Theorem init_scheduler_bad_datetime st g rs r :
  (g, rs) ∈ reminder_data st -> r ∈ rs -> ~ parses r ->
  exists e, (_init_scheduler st).1 = Raise e.
Proof.
  intros Hg Hr Hbad. unfold _init_scheduler, bind, get_data.
  destruct (init_groups_any (reminder_data st) st)
    as (d' & oe & st1 & Hrun & _ & _ & _ & _ & _ & Hex).
  rewrite Hrun. unfold put_data. cbn [fst snd].
  destruct oe as [e|]; [by exists e|].
  destruct Hex; [|done].
  apply Exists_exists. exists (g, rs). split; [done|].
  apply Exists_exists. by exists r.
Qed.

End More.

Section HandlerFacts.
Context `{H : Host} `{HE : HostErrors}.

(** ** [set_reminder] *)

Lemma add_file_replies umo text dts cron h st :
  reminder_file (_add_single_reminder umo text dts cron h st).2
  = reminder_file st /\
  replies (_add_single_reminder umo text dts cron h st).2 = replies st.
Proof.
  destruct (nonempty cron) as [c|] eqn:Hc.
  - rewrite (add_cron_run _ _ _ _ _ _ c Hc).
    by destruct (_parse_cron_expr c).
  - destruct (nonempty dts) as [s|] eqn:Hd.
    + rewrite (add_date_run _ _ _ _ _ _ s Hc Hd).
      by destruct (py_strptime (PStr s)).
    + rewrite (add_none_run _ _ _ _ _ _ Hc Hd). cbn [snd].
      unfold ensure_bucket. by destruct (store_lookup umo (reminder_data st)).
Qed.

Lemma set_reminder_run p umo text dts cron h st :
  p <> "qq_official" ->
  set_reminder p umo text dts cron h st
  = let added := _add_single_reminder umo text dts cron h st in
    match added.1 with
    | Ok display =>
        (Ok tt, saved_and_replied (msg_set display.1 display.2) added.2)
    | Raise e =>
        match caught_value_error dts e with
        | Some text_of_e => (Ok tt, replied (msg_set_failed text_of_e) added.2)
        | None => (Raise e, added.2)
        end
    end.
Proof.
  intros Hp. unfold set_reminder. rewrite decide_False by done.
  unfold bind, try_. cbv zeta.
  destruct (_add_single_reminder umo text dts cron h st) as [[disp|e] st1];
    cbn [fst snd].
  - done.
  - by destruct (caught_value_error dts e).
Qed.

(** X14: when the add returns, [set_reminder] rewrites the file with the
    document, whose bucket now ends with the new record, and replies with
    the text and the display time. *)
Theorem set_reminder_persists p umo text dts cron h st t disp :
  p <> "qq_official" ->
  (_add_single_reminder umo text dts cron h st).1 = Ok (t, disp) ->
  let out := set_reminder p umo text dts cron h st in
  out.1 = Ok tt /\
  reminder_file out.2 = reminder_data out.2 /\
  bucket umo (reminder_file out.2)
  = bucket umo (reminder_data st)
    ++ [new_record text dts cron h (uuid4 (uuid_drawn st))] /\
  replies out.2 = replies st ++ [msg_set t disp].
Proof.
  intros Hp Hadd. cbv zeta. rewrite (set_reminder_run _ _ _ _ _ _ _ Hp).
  cbv zeta. rewrite Hadd. cbn [fst snd reminder_file reminder_data replies
                               saved_and_replied].
  split; [done|]. split; [done|]. split.
  - apply add_appends.
    destruct (nonempty cron) eqn:Hc; [by left|].
    destruct (nonempty dts) eqn:Hd; [by right|].
    by rewrite (add_none_run _ _ _ _ _ _ Hc Hd) in Hadd.
  - by destruct (add_file_replies umo text dts cron h st) as [_ ->].
Qed.

(** X15: a datetime that [strptime] rejects is answered with the failure
    text, and the file is not rewritten; but the record is by then in the
    document, and from then on every listing of the context raises. *)
Theorem set_reminder_bad_datetime p umo text dts cron h st s :
  p <> "qq_official" ->
  nonempty cron = None -> nonempty dts = Some s -> strptime s = None ->
  let out := set_reminder p umo text dts cron h st in
  out.1 = Ok tt /\
  replies out.2 = replies st ++ [msg_set_failed (strptime_error s)] /\
  reminder_file out.2 = reminder_file st /\
  bucket umo (reminder_data out.2)
  = bucket umo (reminder_data st)
    ++ [date_record text (uuid4 (uuid_drawn st)) s] /\
  forall l, (get_upcoming_reminders umo out.2).1 <> Ok l.
Proof.
  intros Hp Hc Hd Hs. cbv zeta. rewrite (set_reminder_run _ _ _ _ _ _ _ Hp).
  cbv zeta. rewrite (add_date_run _ _ _ _ _ _ s Hc Hd).
  cbn [py_strptime]. rewrite Hs. cbn [fst snd caught_value_error].
  apply nonempty_Some in Hd as [-> _]. cbn [py_format].
  cbn [replied reminder_data reminder_file replies appended].
  split; [done|]. split; [done|]. split; [done|].
  rewrite bucket_set_eq. split; [done|].
  intros l Hl. rewrite get_upcoming_run in Hl.
  unfold replied, appended in Hl. cbn [reminder_data clock_reads] in Hl.
  rewrite bucket_set_eq in Hl.
  destruct (bucket umo (reminder_data st) ++ _) as [|r rs] eqn:Hb.
  { by destruct (bucket umo (reminder_data st)). }
  cbn [fst] in Hl. apply upcoming_parses in Hl. rewrite <- Hb in Hl.
  apply Forall_app in Hl as [_ Hl]. apply Forall_cons in Hl as [Hl _].
  unfold parses in Hl.
  destruct (date_record_lookups text (uuid4 (uuid_drawn st)) s) as (Hdt & _).
  rewrite Hdt in Hl. cbn in Hl. rewrite Hs in Hl. by destruct Hl.
Qed.

(** X16: a cron expression of fewer than five fields raises an
    [IndexError] that [set_reminder] does not catch: there is no reply and
    no save, no job is submitted, and the record stays in the document. *)
Theorem set_reminder_short_cron p umo text dts cron h st c :
  p <> "qq_official" ->
  nonempty cron = Some c -> (length (split_space c) < 5)%nat ->
  let out := set_reminder p umo text dts cron h st in
  out.1 = Raise IndexError /\
  replies out.2 = replies st /\
  reminder_file out.2 = reminder_file st /\
  calls out.2 = calls st /\
  bucket umo (reminder_data out.2)
  = bucket umo (reminder_data st)
    ++ [cron_record text (uuid4 (uuid_drawn st)) c h].
Proof.
  intros Hp Hc Hlen. cbv zeta. rewrite (set_reminder_run _ _ _ _ _ _ _ Hp).
  cbv zeta. rewrite (add_cron_run _ _ _ _ _ _ c Hc).
  assert (_parse_cron_expr c = Raise IndexError) as ->.
  { pose proof (parse_cron_expr_cases c) as Hcase.
    destruct (split_space c) as [|f0 [|f1 [|f2 [|f3 [|f4 rest]]]]];
      simpl in Hlen; try done; lia. }
  cbn [fst snd caught_value_error appended reminder_data reminder_file
       replies calls].
  by rewrite bucket_set_eq.
Qed.

(** ** [set_multiple_reminders] *)

Lemma add_each_cons umo r rs st :
  add_each umo (r :: rs) st
  = let a := entry_add umo r st in
    match entry_line r a.1 with
    | Some line =>
        match (add_each umo rs a.2).1 with
        | Ok results => (Ok (line :: results), (add_each umo rs a.2).2)
        | Raise e => (Raise e, (add_each umo rs a.2).2)
        end
    | None =>
        (match a.1 with Raise e => Raise e | Ok _ => Ok [] end, a.2)
    end.
Proof.
  cbn [add_each]. unfold bind at 1, try_ at 1. cbv zeta. fold (entry_add umo r).
  destruct (entry_add umo r st) as [[disp|e] st1]; cbn [fst snd entry_line].
  - unfold bind, ret. by destruct (add_each umo rs st1) as [[res|e'] st2].
  - destruct (caught_value_error (dict_get "datetime_str" r) e); cbn [fmap option_fmap option_map].
    + unfold bind, ret. by destruct (add_each umo rs st1) as [[res|e'] st2].
    + done.
Qed.

Lemma entry_line_Ok r a : entry_line r (Ok a) <> None.
Proof. done. Qed.

Lemma add_each_file_replies umo rs st :
  reminder_file (add_each umo rs st).2 = reminder_file st /\
  replies (add_each umo rs st).2 = replies st.
Proof.
  revert st. induction rs as [|r rs IH]; intros st; [done|].
  rewrite add_each_cons. cbv zeta.
  destruct (add_file_replies umo (dict_get "text" r)
              (dict_get "datetime_str" r) (dict_get "cron_expression" r)
              (dict_get "human_readable_cron" r) st) as [Hf Hr].
  fold (entry_add umo r st) in Hf, Hr.
  destruct (entry_line r (entry_add umo r st).1); [|done].
  destruct (IH (entry_add umo r st).2) as [Hf2 Hr2].
  destruct (add_each umo rs (entry_add umo r st).2).1; cbn [snd];
    split; congruence.
Qed.



Lemma entry_add_short_cron umo r st :
  short_cron_entry r -> (entry_add umo r st).1 = Raise IndexError.
Proof.
  intros (c & Hc & Hlen). unfold entry_add.
  rewrite (add_cron_run _ _ _ _ _ _ c Hc).
  pose proof (parse_cron_expr_cases c) as Hcase.
  destruct (split_space c) as [|f0 [|f1 [|f2 [|f3 [|f4 rest]]]]];
    simpl in Hlen; try lia; by rewrite Hcase.
Qed.

Lemma add_each_short_cron umo rs st :
  Exists short_cron_entry rs -> exists e, (add_each umo rs st).1 = Raise e.
Proof.
  intros Hex. revert st. induction Hex as [r rs Hr|r rs Hrs IH]; intros st.
  - rewrite add_each_cons. cbv zeta.
    rewrite (entry_add_short_cron umo r st Hr). cbn. by eexists.
  - rewrite add_each_cons. cbv zeta.
    destruct (entry_line r (entry_add umo r st).1) eqn:Hline.
    + destruct (IH (entry_add umo r st).2) as [e ->]. by eexists.
    + cbn [fst]. destruct (entry_add umo r st).1 as [a|e] eqn:Ha;
        [|by eexists].
      by destruct (entry_line_Ok r a).
Qed.

(** X18: one entry with a cron expression of fewer than five fields makes
    the whole batch raise: nothing is replied and the file is not
    rewritten, whatever the entries before it have added. *)
Theorem batch_aborted p umo rs st :
  p <> "qq_official" ->
  Exists short_cron_entry rs ->
  let out := set_multiple_reminders p umo rs st in
  (exists e, out.1 = Raise e) /\
  replies out.2 = replies st /\
  reminder_file out.2 = reminder_file st.
Proof.
  intros Hp Hex. cbv zeta. unfold set_multiple_reminders.
  rewrite decide_False by done. unfold bind.
  destruct (add_each_file_replies umo rs st) as [Hf Hr].
  destruct (add_each_short_cron umo rs st Hex) as [e He].
  destruct (add_each umo rs st) as [res st1]. cbn [fst snd] in *. subst res.
  split; [by eexists|done].
Qed.

Lemma entry_add_grows umo r st :
  exists extra,
    bucket umo (reminder_data (entry_add umo r st).2)
    = bucket umo (reminder_data st) ++ extra.
Proof.
  unfold entry_add.
  destruct (nonempty (dict_get "cron_expression" r)) as [c|] eqn:Hc.
  - eexists. apply add_appends. left. by rewrite Hc.
  - destruct (nonempty (dict_get "datetime_str" r)) as [s|] eqn:Hd.
    + eexists. apply add_appends. right. by rewrite Hd.
    + exists []. rewrite (add_none_run _ _ _ _ _ _ Hc Hd). cbn [snd].
      by rewrite bucket_ensure, app_nil_r.
Qed.

Lemma add_each_grows umo rs st :
  exists extra,
    bucket umo (reminder_data (add_each umo rs st).2)
    = bucket umo (reminder_data st) ++ extra.
Proof.
  revert st. induction rs as [|r rs IH]; intros st.
  { exists []. by rewrite app_nil_r. }
  rewrite add_each_cons. cbv zeta.
  destruct (entry_add_grows umo r st) as [x1 Hx1].
  destruct (entry_line r (entry_add umo r st).1).
  - destruct (IH (entry_add umo r st).2) as [x2 Hx2].
    exists (x1 ++ x2).
    destruct (add_each umo rs (entry_add umo r st).2).1; cbn [snd];
      by rewrite Hx2, Hx1, app_assoc.
  - by exists x1.
Qed.

Lemma add_each_keeps_entry umo rs st results r s :
  (add_each umo rs st).1 = Ok results ->
  r ∈ rs -> datetime_entry s r ->
  exists d, d ∈ bucket umo (reminder_data (add_each umo rs st).2) /\
            d !! "datetime" = Some (PStr s).
Proof.
  intros Hres Hin [Hc Hd]. revert st results Hres.
  induction rs as [|r0 rs IH]; intros st results; [by apply elem_of_nil in Hin|].
  rewrite add_each_cons. cbv zeta.
  destruct (entry_line r0 (entry_add umo r0 st).1) eqn:Hline.
  - destruct (add_each umo rs (entry_add umo r0 st).2).1 as [res|e] eqn:Hrest;
      cbn [fst snd]; [|done].
    intros _. apply elem_of_cons in Hin as [<-|Hin].
    + destruct (add_each_grows umo rs (entry_add umo r st).2) as [x Hx].
      assert (Hb : bucket umo (reminder_data (entry_add umo r st).2)
                   = bucket umo (reminder_data st)
                     ++ [date_record (dict_get "text" r)
                           (uuid4 (uuid_drawn st)) s]).
      { unfold entry_add. rewrite add_appends by (right; by rewrite Hd).
        unfold new_record. by rewrite Hc, Hd. }
      eexists. split.
      * rewrite Hx, Hb. apply elem_of_app. left. apply elem_of_app. right.
        apply list_elem_of_singleton. reflexivity.
      * by destruct (date_record_lookups (dict_get "text" r)
                       (uuid4 (uuid_drawn st)) s) as (-> & _).
    + by eapply IH.
  - cbn [fst]. destruct (entry_add umo r0 st).1 as [a|e] eqn:Ha; [|done].
    by destruct (entry_line_Ok r0 a).
Qed.

(** X19: unlike [set_reminder], a batch that completes writes to the file
    the record of an entry whose datetime [strptime] rejected: the file
    then holds a record that makes every later listing, and the next
    startup, raise. *)
Theorem batch_saves_bad_datetime p umo rs st results r s :
  p <> "qq_official" ->
  (add_each umo rs st).1 = Ok results ->
  r ∈ rs -> datetime_entry s r -> strptime s = None ->
  let out := set_multiple_reminders p umo rs st in
  out.1 = Ok tt /\
  exists d, d ∈ bucket umo (reminder_file out.2) /\
            d !! "datetime" = Some (PStr s) /\ ~ parses d.
Proof.
  intros Hp Hres Hin Hentry Hs. cbv zeta. unfold set_multiple_reminders.
  rewrite decide_False by done. unfold bind.
  destruct (add_each_keeps_entry _ _ _ _ _ _ Hres Hin Hentry)
    as (d & Hd & Hdt).
  destruct (add_each umo rs st) as [res st1]. cbn [fst snd] in *. subst res.
  unfold _save_data, yield. cbn. split; [done|].
  exists d. split; [done|]. split; [done|].
  unfold parses. rewrite Hdt. cbn. rewrite Hs. by intros [t Ht].
Qed.

(** ** [reminder_ls] *)

Lemma ls_lines_raises i l r :
  r ∈ l -> (forall j, exists e, ls_line j r = Raise e) ->
  exists e, ls_lines i l = Raise e.
Proof.
  intros Hin Hr. revert i. induction l as [|r0 l IH]; intros i;
    [by apply elem_of_nil in Hin|].
  cbn [ls_lines]. destruct (ls_line i r0) as [line|e] eqn:Hline;
    [|by eexists].
  apply elem_of_cons in Hin as [->|Hin].
  - destruct (Hr i) as [e He]. congruence.
  - destruct (IH Hin (S i)) as [e ->]. by eexists.
Qed.

Lemma ls_raises umo st r :
  r ∈ bucket umo (reminder_data st) ->
  r !! "datetime" = None -> r !! "cron_h" = Some PNone ->
  exists e, (reminder_ls umo st).1 = Raise e /\
            replies (reminder_ls umo st).2 = replies st.
Proof.
  intros Hin Hdt Hch. unfold reminder_ls, bind.
  rewrite get_upcoming_run.
  destruct (bucket umo (reminder_data st)) as [|r0 rs] eqn:Hb;
    [by apply elem_of_nil in Hin|]. rewrite <- Hb in *.
  destruct (upcoming (clock (clock_reads st)) (bucket umo (reminder_data st)))
    as [l|e] eqn:Hup; [|by eexists].
  apply upcoming_is_filter in Hup.
  assert (Hl : r ∈ l).
  { subst l. apply list_elem_of_filter. split; [|done].
    unfold due. by rewrite Hdt. }
  destruct (ls_lines_raises 0 l r Hl) as [e He].
  { intros j. exists TypeError. unfold ls_line, ls_time, dict_get_str.
    by rewrite Hdt, Hch. }
  destruct l as [|x l]; [by apply elem_of_nil in Hl|].
  unfold lift. rewrite He. by eexists.
Qed.

(** X20: after an add with a cron expression and no label (the default of
    the tool), [reminder_ls] raises for the context and replies nothing:
    the label stored is [None], and the listing adds it to a string. *)
Theorem ls_after_unlabelled_add umo text dts cron st c :
  nonempty cron = Some c ->
  let st1 := (_add_single_reminder umo text dts cron PNone st).2 in
  exists e, (reminder_ls umo st1).1 = Raise e /\
            replies (reminder_ls umo st1).2 = replies st.
Proof.
  intros Hc. cbv zeta.
  destruct (add_file_replies umo text dts cron PNone st) as [_ Hr].
  rewrite <- Hr. apply (ls_raises _ _ (cron_record text (uuid4 (uuid_drawn st)) c PNone)).
  - rewrite add_appends by (left; by rewrite Hc).
    unfold new_record. rewrite Hc. apply elem_of_app. right.
    apply list_elem_of_singleton. reflexivity.
  - by destruct (cron_record_lookups text (uuid4 (uuid_drawn st)) c PNone)
      as (-> & _).
  - unfold cron_record. by rewrite lookup_insert_eq.
Qed.

Lemma append_empty_r (s : string) : s +:+ "" = s.
Proof.
  induction s as [|a s IH]; [done|].
  change (String a (s +:+ "") = String a s). by rewrite IH.
Qed.

(** X21: the listing shows for a new record what the add returned: when
    the add returns a text and a non-empty display time, the line of the
    record at index [i] is ["{i+1}. {text} - {display time}"]. *)
Theorem ls_line_of_added umo text dts cron h st t disp i :
  (_add_single_reminder umo text dts cron h st).1 = Ok (t, disp) ->
  disp <> "" ->
  ls_line i (new_record text dts cron h (uuid4 (uuid_drawn st)))
  = Ok (pretty (S i) +:+ ". " +:+ t +:+ " - " +:+ disp +:+ nl).
Proof.
  unfold new_record.
  destruct (nonempty cron) as [c|] eqn:Hc.
  - rewrite (add_cron_run _ _ _ _ _ _ c Hc).
    destruct (_parse_cron_expr c) as [f|e]; cbv zeta; cbn [fst]; [|done].
    match goal with
    | |- context [(add_job ?j ?e).1] => destruct (add_job j e).1
    end; [done|].
    intros [= <- <-] Hdisp. unfold cron_display in *.
    destruct (nonempty h) as [label|] eqn:Hh; [|done].
    apply nonempty_Some in Hh as [-> _].
    destruct (cron_record_lookups text (uuid4 (uuid_drawn st)) c (PStr label))
      as (Hdt & Htext & _).
    unfold ls_line, ls_time, dict_get_str, dict_item.
    rewrite Hdt, Htext. unfold cron_record at 1 2.
    rewrite lookup_insert_eq, lookup_insert_ne, lookup_insert_eq by done.
    done.
  - destruct (nonempty dts) as [s|] eqn:Hd.
    + rewrite (add_date_run _ _ _ _ _ _ s Hc Hd).
      destruct (py_strptime (PStr s)) as [t0|e]; cbv zeta; cbn [fst]; [|done].
      match goal with
      | |- context [(add_job ?j ?e).1] => destruct (add_job j e).1
      end; [done|].
      intros [= <- <-] Hdisp. cbn [default from_option id].
      destruct (date_record_lookups text (uuid4 (uuid_drawn st)) s)
        as (Hdt & Htext & _).
      unfold ls_line, ls_time, dict_get_str, dict_item.
      rewrite Hdt, Htext. cbn [default from_option id nonempty].
      by rewrite decide_False.
    + by rewrite (add_none_run _ _ _ _ _ _ Hc Hd).
Qed.

(** ** [_reminder_callback] *)

Lemma append_assoc (a b c : string) : (a +:+ b) +:+ c = a +:+ b +:+ c.
Proof.
  induction a as [|x a IH]; [done|].
  change (String x ((a +:+ b) +:+ c) = String x (a +:+ b +:+ c)).
  by rewrite IH.
Qed.

(** X22: when the job of a record made by an add fires, the line is
    logged, and the notification is the text followed by the datetime of a
    one-shot record or by the label of a recurring one; for a recurring
    record added without a label the callback raises a [TypeError] and
    nothing is sent. *)
Theorem callback_of_added umo text dts cron h uid :
  (nonempty cron <> None \/ nonempty dts <> None) ->
  _reminder_callback umo (new_record text dts cron h uid)
  = Ok (msg_activated (PStr (text_of text)) umo,
        match nonempty cron, h with
        | Some _, PNone => Raise TypeError
        | Some _, PStr label =>
            Ok (umo, notification_head (text_of text) +:+ label)
        | None, _ =>
            Ok (umo, notification_head (text_of text)
                     +:+ default "" (nonempty dts))
        end).
Proof.
  intros Hgiven. unfold new_record, _reminder_callback, notification,
    notification_head, dict_item, dict_get_str.
  destruct (nonempty cron) as [c|] eqn:Hc.
  - destruct (cron_record_lookups text uid c h) as (Hdt & Htext & _).
    rewrite Htext, Hdt. unfold cron_record at 1.
    rewrite lookup_insert_eq. cbn [rbind str_add default from_option id].
    destruct h as [|label]; cbn [str_add rbind]; [done|].
    by rewrite append_empty_r, !append_assoc.
  - destruct (nonempty dts) as [s|] eqn:Hd; [|by destruct Hgiven].
    destruct (date_record_lookups text uid s) as (Hdt & Htext & _).
    cbn [default from_option id]. rewrite Htext, Hdt.
    unfold date_record at 1.
    rewrite 2!lookup_insert_ne, lookup_singleton_ne by done.
    cbn [rbind str_add default from_option id].
    by rewrite append_empty_r, !append_assoc.
Qed.

End HandlerFacts.

(** * The statements on the example document *)

Section Examples.
Import Fake.
#[local] Existing Instance Fake.host.

(** C1 on the started instance: position 2 of the listing is the standup
    record. *)
Lemma rm_removes_kth_witness :
  (get_upcoming_reminders "ctx" started).1 = Ok [milk; standup] /\
  NoDup (ids (bucket "ctx" (reminder_data started))) /\
  let out := reminder_rm "ctx" 2 started in
  out.1 = Ok tt /\
  last (replies out.2) = Some (msg_removed "Standup") /\
  bucket "ctx" (reminder_data out.2) = [dentist; milk] /\
  (get_upcoming_reminders "ctx" out.2).1 = Ok [milk].
Proof.
  assert (Hl : (get_upcoming_reminders "ctx" started).1 = Ok [milk; standup])
    by (vm_compute; reflexivity).
  assert (Hnd : NoDup (ids (bucket "ctx" (reminder_data started)))).
  { refine (bool_decide_unpack _ _). vm_compute. exact I. }
  assert (Hk : 1 <= 2 <= Z.of_nat (length [milk; standup])) by (simpl; lia).
  pose proof (rm_removes_kth "ctx" 2 started [milk; standup] standup "Standup"
                Hl Hk eq_refl Hnd eq_refl) as W.
  cbv zeta in W. destruct W as (W1 & W2 & _).
  split; [exact Hl|]. split; [exact Hnd|]. cbv zeta.
  split; [exact W1|]. split; [exact W2|].
  split; vm_compute; reflexivity.
Defined.

(** C2 on the loaded document: the overdue record is not listed and the
    document is untouched. *)
Lemma get_upcoming_reminders_spec_witness :
  Forall storable (bucket "ctx" (reminder_data (boot sample []))) /\
  let out := get_upcoming_reminders "ctx" (boot sample []) in
  out.1 = Ok [milk; standup] /\ reminder_data out.2 = sample.
Proof.
  assert (Hs : Forall storable (bucket "ctx" (reminder_data (boot sample [])))).
  { repeat constructor; vm_compute; try exact I; by eexists. }
  pose proof (get_upcoming_reminders_spec "ctx" (boot sample []) Hs) as W.
  cbv zeta in W. destruct W as (W1 & W2 & _).
  split; [exact Hs|]. cbv zeta. split; [|exact W2].
  rewrite W1. vm_compute. reflexivity.
Defined.

(** C6 on an instance whose engine has lost its jobs. *)
Lemma rm_survives_remove_job_failure_witness :
  (remove_job (dict_get "id" milk) (scheduler (boot sample []))).1
  = Some "No job by the id was found" /\
  let out := reminder_rm "ctx" 1 (boot sample []) in
  out.1 = Ok tt /\
  bucket "ctx" (reminder_data out.2) = [dentist; standup] /\
  reminder_file out.2 = reminder_data out.2 /\
  replies out.2
  = [msg_remove_job_failed "No job by the id was found"; msg_removed "Buy milk"].
Proof.
  assert (Hl : (get_upcoming_reminders "ctx" (boot sample [])).1
               = Ok [milk; standup]) by (vm_compute; reflexivity).
  assert (Hnd : NoDup (ids (bucket "ctx" (reminder_data (boot sample []))))).
  { refine (bool_decide_unpack _ _). vm_compute. exact I. }
  assert (Hk : 1 <= 1 <= Z.of_nat (length [milk; standup])) by (simpl; lia).
  assert (He : (remove_job (dict_get "id" milk) (scheduler (boot sample []))).1
               = Some "No job by the id was found") by (vm_compute; reflexivity).
  pose proof (rm_survives_remove_job_failure "ctx" 1 (boot sample [])
                [milk; standup] milk "Buy milk" _ Hl Hk eq_refl Hnd eq_refl He)
    as W.
  cbv zeta in W. destruct W as (W1 & _ & W3 & W4 & _).
  split; [exact He|]. cbv zeta. split; [exact W1|].
  split; [vm_compute; reflexivity|]. split; [exact W3|exact W4].
Defined.

(** C7 on the example document: the record without an id receives one, the
    overdue record has no job, the three others have theirs. *)
Lemma init_scheduler_reconciles_witness :
  Forall (fun entry => Forall armable entry.2) sample /\
  let out := _init_scheduler (boot sample []) in
  out.1 = Ok tt /\
  (exists js,
     store_reconciled 0 (clock_reads out.2) sample (reminder_data out.2) js /\
     calls out.2 = AddJob <$> js) /\
  job_id <$> scheduler out.2
  = [PStr "id-milk"; PStr "id-standup"; PStr (uuid4 0)] /\
  bucket "ctx" (reminder_data out.2) = [dentist; milk; standup].
Proof.
  assert (Ha : Forall (fun entry => Forall armable entry.2)
                 (reminder_data (boot sample []))).
  { repeat constructor; vm_compute; try exact I; by eexists. }
  assert (He : forall msg,
             (_init_scheduler (boot sample [])).1 <> Raise (EngineError msg)).
  { intros msg. vm_compute. discriminate. }
  pose proof (init_scheduler_reconciles (boot sample []) Ha He) as W.
  cbv zeta in W. destruct W as (W1 & W2).
  split; [exact Ha|]. cbv zeta. split; [exact W1|]. split; [exact W2|].
  split; vm_compute; reflexivity.
Defined.

(** C9 on the scenario of the specification. *)
Lemma add_display_time_witness :
  let out := _add_single_reminder "ctx" (PStr "Standup") PNone
               (PStr "0 9 * * 1") (PStr "每周一9点") (boot [] []) in
  out.1 = Ok ("Standup", "每周一9点(Cron: 0 9 * * 1)") /\
  "每周一9点(Cron: 0 9 * * 1)" = "每周一9点" +:+ "(Cron: " +:+ "0 9 * * 1" +:+ ")".
Proof.
  assert (Ho : (_add_single_reminder "ctx" (PStr "Standup") PNone
                  (PStr "0 9 * * 1") (PStr "每周一9点") (boot [] [])).1
               = Ok ("Standup", "每周一9点(Cron: 0 9 * * 1)"))
    by (vm_compute; reflexivity).
  split; [exact Ho|].
  exact (add_display_time _ _ _ _ _ _ _ _ Ho).
Defined.

(** C10 on an empty document. *)
Lemma add_failed_creates_bucket_witness :
  let out := _add_single_reminder "ctx" (PStr "Standup") PNone PNone PNone
               (boot [] []) in
  out.1 = Raise ValueError_no_schedule /\ reminder_data out.2 = [("ctx", [])].
Proof.
  pose proof (add_failed_creates_bucket "ctx" (PStr "Standup") PNone PNone
                PNone (boot [] []) eq_refl eq_refl eq_refl) as W.
  cbv zeta in W. destruct W as (W1 & W2 & _).
  cbv zeta. split; [exact W1|exact W2].
Defined.

(** C5, as amended, on the example document: position 5 of a listing of
    two. *)
Lemma rm_bad_position_witness :
  (get_upcoming_reminders "ctx" started).1 = Ok [milk; standup] /\
  let out := reminder_rm "ctx" 5 started in
  out.1 = Ok tt /\ replies out.2 = [msg_out_of_range] /\
  reminder_data out.2 = reminder_data started.
Proof.
  assert (Hl : (get_upcoming_reminders "ctx" started).1 = Ok [milk; standup])
    by (vm_compute; reflexivity).
  assert (Hk : 5 < 1 \/ 5 > Z.of_nat (length [milk; standup]))
    by (right; simpl; lia).
  pose proof (rm_bad_position "ctx" 5 started [milk; standup] Hl Hk) as W.
  cbv zeta in W. destruct W as (W1 & W2 & W3 & _).
  split; [exact Hl|]. cbv zeta. split; [exact W1|]. split; [exact W2|exact W3].
Defined.

(** C5, as stated, fails on an empty listing: the reply is the no-reminders
    text, not the index-out-of-range text. *)
Lemma rm_empty_listing_reply :
  let out := reminder_rm "ctx" 0 (boot [] []) in
  (get_upcoming_reminders "ctx" (boot [] [])).1 = Ok [] /\
  replies out.2 = [msg_no_reminders] /\
  msg_no_reminders <> msg_out_of_range.
Proof. repeat split; try (vm_compute; reflexivity). vm_compute. discriminate. Qed.

(** C3, as stated, fails when both a datetime and a cron expression are
    given: the add succeeds as a recurring reminder. *)
Lemma add_both_given_succeeds :
  let out := _add_single_reminder "ctx" (PStr "Standup")
               (PStr "2030-01-01 09:00") (PStr "0 9 * * 1") PNone
               (boot [] []) in
  nonempty (PStr "2030-01-01 09:00") = Some "2030-01-01 09:00" /\
  nonempty (PStr "0 9 * * 1") = Some "0 9 * * 1" /\
  out.1 = Ok ("Standup", "") /\
  out.1 <> Raise ValueError_no_schedule /\
  schedule_of <$> bucket "ctx" (reminder_data out.2)
  = [Some (Recurring (PStr "0 9 * * 1"))].
Proof. repeat split; try (vm_compute; reflexivity). vm_compute. discriminate. Qed.

(** C4, as stated, fails: a cron expression of two fields raises after the
    record has been appended, and no job is submitted. *)
Lemma add_bad_cron_keeps_record :
  let out := _add_single_reminder "ctx" (PStr "Standup") PNone
               (PStr "every monday") PNone (boot [] []) in
  out.1 = Raise IndexError /\
  bucket "ctx" (reminder_data (boot [] [])) = [] /\
  length (bucket "ctx" (reminder_data out.2)) = 1%nat /\
  calls out.2 = [] /\ scheduler out.2 = [].
Proof. repeat split; vm_compute; reflexivity. Qed.

(** The same with a datetime that does not parse; the record left behind
    then makes the listing raise. *)
Example add_bad_datetime_breaks_listing :
  let out := _add_single_reminder "ctx" (PStr "Dentist") (PStr "tomorrow")
               PNone PNone (boot [] []) in
  out.1 = Raise StrptimeError /\
  length (bucket "ctx" (reminder_data out.2)) = 1%nat /\
  (get_upcoming_reminders "ctx" out.2).1 = Raise StrptimeError.
Proof. repeat split; vm_compute; reflexivity. Qed.

(** C8, as stated, fails: an expression of six fields is accepted, the
    sixth is dropped and the first five reach the engine. *)
Lemma parse_cron_expr_six_fields :
  let out := _add_single_reminder "ctx" (PStr "Standup") PNone
               (PStr "0 9 * * 1 2030") PNone (boot [] []) in
  split_space "0 9 * * 1 2030" = ["0"; "9"; "*"; "*"; "1"; "2030"] /\
  _parse_cron_expr "0 9 * * 1 2030" = Ok (mkCron "0" "9" "*" "*" "1") /\
  out.1 = Ok ("Standup", "") /\
  job_trigger <$> scheduler out.2
  = [CronTrigger (mkCron "0" "9" "*" "*" "1")].
Proof. repeat split; vm_compute; reflexivity. Qed.

(** Outside the data model, where two neighbours carry one id, the removal
    loop steps over the second: this is where the distinct ids are used. *)
Example pop_matching_neighbours :
  let a := date_record (PStr "a") "x" "2000-01-01 00:00" in
  let b := cron_record (PStr "b") "x" "0 9 * * 1" PNone in
  pop_matching (PStr "x") [a; b] = [b].
Proof. vm_compute. reflexivity. Qed.

End Examples.

(* ------------------------------------------------------------------ *)
(** * The further properties on the sample host *)

Section MoreExamples.
Import Fake.
#[local] Existing Instance Fake.host.
#[local] Existing Instance Fake.host_errors.

Lemma split_join_space_witness :
  split_space "0 9 * * 1" = ["0"; "9"; "*"; "*"; "1"].
Proof.
  apply (split_join_space ["0"; "9"; "*"; "*"; "1"]); [done|].
  repeat constructor.
Defined.

Lemma add_record_shape_witness :
  exists d,
    bucket "ctx"
      (reminder_data
         (_add_single_reminder "ctx" (PStr "Water") (PStr "2031-05-05 10:00")
            PNone PNone (boot sample [])).2)
    = [dentist; milk; standup] ++ [d] /\
    (exists t, t <> "" /\ d !! "text" = Some (PStr t)) /\
    d !! "id" = Some (PStr (uuid4 0)) /\
    d !! "datetime" = Some (PStr "2031-05-05 10:00") /\
    nonempty (PStr "2031-05-05 10:00") <> None /\
    d !! "cron" = None /\ d !! "cron_h" = None.
Proof.
  assert (Hs : nonempty PNone <> None
               \/ nonempty (PStr "2031-05-05 10:00") <> None)
    by (right; discriminate).
  exact (add_record_shape "ctx" (PStr "Water") (PStr "2031-05-05 10:00")
           PNone PNone (boot sample []) Hs).
Defined.

Lemma add_one_shot_then_listing_witness :
  Forall parses (bucket "ctx" (reminder_data (boot sample []))) /\
  (get_upcoming_reminders "ctx"
     (_add_single_reminder "ctx" (PStr "Water") (PStr "2031-05-05 10:00")
        PNone PNone (boot sample [])).2).1
  = Ok [milk; standup;
        date_record (PStr "Water") (uuid4 0) "2031-05-05 10:00"].
Proof.
  assert (Hp : Forall parses (bucket "ctx" (reminder_data (boot sample [])))).
  { repeat constructor; vm_compute; try exact I; by eexists. }
  assert (Ht : strptime "2031-05-05 10:00" = Some (mkDatetime 2031 5 5 10 0 0 0))
    by (vm_compute; reflexivity).
  split; [exact Hp|].
  exact (add_one_shot_then_listing "ctx" (PStr "Water")
           (PStr "2031-05-05 10:00") PNone PNone (boot sample [])
           "2031-05-05 10:00" (mkDatetime 2031 5 5 10 0 0 0)
           eq_refl eq_refl Ht Hp).
Defined.

Lemma add_recurring_then_listing_witness :
  Forall parses (bucket "ctx" (reminder_data (boot sample []))) /\
  (get_upcoming_reminders "ctx"
     (_add_single_reminder "ctx" (PStr "Wake") PNone (PStr "0 7 * * *")
        (PStr "每天7点") (boot sample [])).2).1
  = Ok [milk; standup;
        cron_record (PStr "Wake") (uuid4 0) "0 7 * * *" (PStr "每天7点")].
Proof.
  assert (Hp : Forall parses (bucket "ctx" (reminder_data (boot sample [])))).
  { repeat constructor; vm_compute; try exact I; by eexists. }
  split; [exact Hp|].
  exact (add_recurring_then_listing "ctx" (PStr "Wake") PNone
           (PStr "0 7 * * *") (PStr "每天7点") (boot sample []) "0 7 * * *"
           eq_refl Hp).
Defined.

Lemma add_recurring_then_rm_witness :
  NoDup (ids (bucket "ctx" (reminder_data (boot sample [])))) /\
  (PStr (uuid4 0) ∉ ids (bucket "ctx" (reminder_data (boot sample [])))) /\
  let st1 := (_add_single_reminder "ctx" (PStr "Wake") PNone
                (PStr "0 7 * * *") (PStr "每天7点") (boot sample [])).2 in
  let out := reminder_rm "ctx" 3 st1 in
  out.1 = Ok tt /\
  bucket "ctx" (reminder_data out.2) = [dentist; milk; standup] /\
  last (replies out.2) = Some (msg_removed "Wake") /\
  last (calls out.2) = Some (RemoveJob (PStr (uuid4 0))).
Proof.
  assert (Hp : Forall parses (bucket "ctx" (reminder_data (boot sample [])))).
  { repeat constructor; vm_compute; try exact I; by eexists. }
  assert (Hnd : NoDup (ids (bucket "ctx" (reminder_data (boot sample []))))).
  { refine (bool_decide_unpack _ _). vm_compute. exact I. }
  assert (Hf : PStr (uuid4 (uuid_drawn (boot sample [])))
               ∉ ids (bucket "ctx" (reminder_data (boot sample [])))).
  { refine (bool_decide_unpack _ _). vm_compute. exact I. }
  split; [exact Hnd|]. split; [exact Hf|].
  exact (add_recurring_then_rm "ctx" (PStr "Wake") PNone (PStr "0 7 * * *")
           (PStr "每天7点") (boot sample []) "0 7 * * *" eq_refl Hp Hnd Hf).
Defined.

Lemma init_scheduler_with_ids_witness :
  let st := boot [("ctx", [dentist; milk; standup])] [] in
  let out := _init_scheduler st in
  out.1 = Ok tt /\
  reminder_data out.2 = [("ctx", [dentist; milk; standup])] /\
  uuid_drawn out.2 = 0%nat.
Proof.
  assert (Hi : Forall (fun e => Forall (fun r => is_Some (r !! "id")) e.2)
                 (reminder_data (boot [("ctx", [dentist; milk; standup])] []))).
  { repeat constructor; vm_compute; by eexists. }
  cbv zeta. split; [vm_compute; reflexivity|].
  exact (init_scheduler_with_ids
           (boot [("ctx", [dentist; milk; standup])] []) Hi).
Defined.

Lemma init_scheduler_bad_datetime_witness :
  ~ parses someday /\
  exists e, (_init_scheduler (boot [("ctx", [milk; someday])] [])).1 = Raise e.
Proof.
  assert (Hn : ~ parses someday).
  { intros [t Ht]. vm_compute in Ht. discriminate Ht. }
  split; [exact Hn|].
  apply (init_scheduler_bad_datetime (boot [("ctx", [milk; someday])] [])
           "ctx" [milk; someday] someday); [| |exact Hn].
  - apply list_elem_of_here.
  - apply list_elem_of_further, list_elem_of_here.
Defined.

Lemma set_reminder_persists_witness :
  let out := set_reminder "telegram" "ctx" (PStr "Buy milk")
               (PStr "2030-01-01 09:00") PNone PNone (boot [] []) in
  out.1 = Ok tt /\
  reminder_file out.2 = reminder_data out.2 /\
  bucket "ctx" (reminder_file out.2) = [date_record (PStr "Buy milk") (uuid4 0) "2030-01-01 09:00"] /\
  replies out.2 = [msg_set "Buy milk" "2030-01-01 09:00"].
Proof.
  assert (Hp : "telegram" <> "qq_official") by discriminate.
  assert (Ha : (_add_single_reminder "ctx" (PStr "Buy milk")
                  (PStr "2030-01-01 09:00") PNone PNone (boot [] [])).1
               = Ok ("Buy milk", "2030-01-01 09:00"))
    by (vm_compute; reflexivity).
  exact (set_reminder_persists "telegram" "ctx" (PStr "Buy milk")
           (PStr "2030-01-01 09:00") PNone PNone (boot [] [])
           "Buy milk" "2030-01-01 09:00" Hp Ha).
Defined.

Lemma set_reminder_bad_datetime_witness :
  strptime "tomorrow" = None /\
  let out := set_reminder "telegram" "ctx" (PStr "Call back")
               (PStr "tomorrow") PNone PNone (boot [] []) in
  out.1 = Ok tt /\
  replies out.2 = [msg_set_failed (strptime_error "tomorrow")] /\
  reminder_file out.2 = [] /\
  bucket "ctx" (reminder_data out.2)
  = [date_record (PStr "Call back") (uuid4 0) "tomorrow"] /\
  forall l, (get_upcoming_reminders "ctx" out.2).1 <> Ok l.
Proof.
  assert (Hp : "telegram" <> "qq_official") by discriminate.
  assert (Ht : strptime "tomorrow" = None) by (vm_compute; reflexivity).
  split; [exact Ht|].
  exact (set_reminder_bad_datetime "telegram" "ctx" (PStr "Call back")
           (PStr "tomorrow") PNone PNone (boot [] []) "tomorrow"
           Hp eq_refl eq_refl Ht).
Defined.

Lemma set_reminder_short_cron_witness :
  (length (split_space "every monday") < 5)%nat /\
  let out := set_reminder "telegram" "ctx" (PStr "Standup") PNone
               (PStr "every monday") PNone (boot [] []) in
  out.1 = Raise IndexError /\
  replies out.2 = [] /\
  reminder_file out.2 = [] /\
  calls out.2 = [] /\
  bucket "ctx" (reminder_data out.2)
  = [cron_record (PStr "Standup") (uuid4 0) "every monday" PNone].
Proof.
  assert (Hp : "telegram" <> "qq_official") by discriminate.
  assert (Hl : (length (split_space "every monday") < 5)%nat)
    by (vm_compute; lia).
  split; [exact Hl|].
  exact (set_reminder_short_cron "telegram" "ctx" (PStr "Standup") PNone
           (PStr "every monday") PNone (boot [] []) "every monday"
           Hp eq_refl Hl).
Defined.


Lemma batch_aborted_witness :
  short_cron_entry entry_short /\
  let out := set_multiple_reminders "telegram" "ctx"
               [entry_milk; entry_short] (boot [] []) in
  (exists e, out.1 = Raise e) /\
  replies out.2 = [] /\
  reminder_file out.2 = [].
Proof.
  assert (Hp : "telegram" <> "qq_official") by discriminate.
  assert (Hs : short_cron_entry entry_short).
  { exists "every monday". split; [vm_compute; reflexivity|vm_compute; lia]. }
  split; [exact Hs|].
  apply (batch_aborted "telegram" "ctx" [entry_milk; entry_short]
           (boot [] []) Hp).
  apply Exists_cons_tl, Exists_cons_hd, Hs.
Defined.

Lemma batch_saves_bad_datetime_witness :
  datetime_entry "tomorrow" entry_someday /\
  let out := set_multiple_reminders "telegram" "ctx"
               [entry_milk; entry_someday] (boot [] []) in
  out.1 = Ok tt /\
  exists d, d ∈ bucket "ctx" (reminder_file out.2) /\
            d !! "datetime" = Some (PStr "tomorrow") /\ ~ parses d.
Proof.
  assert (Hp : "telegram" <> "qq_official") by discriminate.
  assert (Hd : datetime_entry "tomorrow" entry_someday)
    by (split; vm_compute; reflexivity).
  assert (Ht : strptime "tomorrow" = None) by (vm_compute; reflexivity).
  assert (Hr : exists results,
             (add_each "ctx" [entry_milk; entry_someday] (boot [] [])).1
             = Ok results)
    by (vm_compute; eexists; reflexivity).
  destruct Hr as [results Hr].
  split; [exact Hd|].
  apply (batch_saves_bad_datetime "telegram" "ctx" [entry_milk; entry_someday]
           (boot [] []) results entry_someday "tomorrow" Hp Hr); [|exact Hd|exact Ht].
  apply list_elem_of_further, list_elem_of_here.
Defined.

Lemma ls_after_unlabelled_add_witness :
  let st1 := (_add_single_reminder "ctx" (PStr "Wake") PNone
                (PStr "0 7 * * *") PNone (boot sample [])).2 in
  (get_upcoming_reminders "ctx" st1).1
  = Ok [milk; standup;
        cron_record (PStr "Wake") (uuid4 0) "0 7 * * *" PNone] /\
  exists e, (reminder_ls "ctx" st1).1 = Raise e /\
            replies (reminder_ls "ctx" st1).2 = [].
Proof.
  cbv zeta. split; [vm_compute; reflexivity|].
  exact (ls_after_unlabelled_add "ctx" (PStr "Wake") PNone (PStr "0 7 * * *")
           (boot sample []) "0 7 * * *" eq_refl).
Defined.

Lemma ls_line_of_added_witness :
  ls_line 2 (cron_record (PStr "Wake") (uuid4 0) "0 7 * * *" (PStr "每天7点"))
  = Ok ("3. Wake - 每天7点(Cron: 0 7 * * *)" +:+ nl).
Proof.
  assert (Ha : (_add_single_reminder "ctx" (PStr "Wake") PNone
                  (PStr "0 7 * * *") (PStr "每天7点") (boot sample [])).1
               = Ok ("Wake", "每天7点(Cron: 0 7 * * *)"))
    by (vm_compute; reflexivity).
  assert (Hd : "每天7点(Cron: 0 7 * * *)" <> "") by discriminate.
  exact (ls_line_of_added "ctx" (PStr "Wake") PNone (PStr "0 7 * * *")
           (PStr "每天7点") (boot sample []) "Wake"
           "每天7点(Cron: 0 7 * * *)" 2%nat Ha Hd).
Defined.

Lemma callback_of_added_witness :
  _reminder_callback "ctx"
    (new_record (PStr "Wake") PNone (PStr "0 7 * * *") PNone "id-wake")
  = Ok (msg_activated (PStr "Wake") "ctx", Raise TypeError).
Proof.
  assert (Hs : nonempty (PStr "0 7 * * *") <> None \/ nonempty PNone <> None)
    by (left; discriminate).
  pose proof (callback_of_added "ctx" (PStr "Wake") PNone (PStr "0 7 * * *")
                PNone "id-wake" Hs) as W.
  exact W.
Defined.

End MoreExamples.
